(** * Provider resolution of [src/lib/ai-providers.ts]

    A shallow embedding of the resolution engine ([getAIModel] and its
    helpers) together with the properties of the specification that can be
    settled on it.

    Conventions of the embedding:
    - a JavaScript string is a [string]; [includes] and [startsWith] compare
      code units, here the bytes of the identifier;
    - a value of type [string | null | undefined] is an [option string];
      [null] and [undefined] are both [None], since the source only ever
      tests such values for truthiness or passes them through [||];
    - [process.env] is a finite map from variable names to strings;
    - a setting or a field is present when it is truthy, that is, set and
      not the empty string;
    - a [throw new Error(...)] is the [Err] case of a result type, one
      constructor of [Error] per throw site of the source. *)

From Stdlib Require Import ZArith Ascii String List Bool Lia.
From Stdlib Require Import Floats.PrimFloat.
From stdpp Require Import base option gmap strings.

Open Scope string_scope.
Open Scope Z_scope.

(** ** Strings *)

Module Js.

(** [s.startsWith(p)] *)
Fixpoint startsWith (s p : string) {struct p} : bool :=
  match p with
  | EmptyString => true
  | String c p' =>
      match s with
      | EmptyString => false
      | String d s' => if Ascii.eqb c d then startsWith s' p' else false
      end
  end.

(** [s.includes(sub)]: some suffix of [s] starts with [sub]. *)
Fixpoint includes (s sub : string) : bool :=
  startsWith s sub ||
  match s with
  | EmptyString => false
  | String _ s' => includes s' sub
  end.

(** Truthiness of a [string | null | undefined] value: present and not the
    empty string. *)
Definition truthy (v : option string) : bool :=
  match v with
  | Some EmptyString | None => false
  | Some (String _ _) => true
  end.

(** [a || b] on such values. *)
Definition or_else (a b : option string) : option string :=
  if truthy a then a else b.

(** [ToString(s)] stripped of its leading [StrWhiteSpaceChar]s, as the first
    step of [Number.parseInt].  The white space of ECMAScript is TAB, LF, VT,
    FF, CR, SP and, in the UTF-8 form in which Node.js receives the
    environment, U+00A0, U+1680, U+2000 to U+200A, U+2028, U+2029, U+202F,
    U+205F, U+3000 and U+FEFF. *)
Definition isSpace1 (c : ascii) : bool :=
  let n := nat_of_ascii c in
  ((9 <=? n) && (n <=? 13) || (n =? 32))%nat.

Definition isSpace2 (c d : ascii) : bool :=
  ((nat_of_ascii c =? 194) && (nat_of_ascii d =? 160))%nat.

Definition isSpace3 (c d e : ascii) : bool :=
  let '(x, y, z) := (nat_of_ascii c, nat_of_ascii d, nat_of_ascii e) in
  ((x =? 225) && (y =? 154) && (z =? 128)
   || (x =? 226) && (y =? 128)
      && ((128 <=? z) && (z <=? 138) || (z =? 168) || (z =? 169) || (z =? 175))
   || (x =? 226) && (y =? 129) && (z =? 159)
   || (x =? 227) && (y =? 128) && (z =? 128)
   || (x =? 239) && (y =? 187) && (z =? 191))%nat.

Fixpoint trimStart (s : string) : string :=
  match s with
  | EmptyString => s
  | String c s1 =>
      if isSpace1 c then trimStart s1 else
      match s1 with
      | EmptyString => s
      | String d s2 =>
          if isSpace2 c d then trimStart s2 else
          match s2 with
          | EmptyString => s
          | String e s3 => if isSpace3 c d e then trimStart s3 else s
          end
      end
  end.

Definition digit (c : ascii) : option Z :=
  let n := nat_of_ascii c in
  if ((48 <=? n) && (n <=? 57))%nat then Some (Z.of_nat n - 48) else None.

(** The longest prefix of decimal digits, read as an integer: [acc] is the
    value of the digits seen so far and [seen] tells whether there was one. *)
Fixpoint digits (s : string) (acc : Z) (seen : bool) : option Z :=
  match s with
  | EmptyString => if seen then Some acc else None
  | String c s' =>
      match digit c with
      | Some d => digits s' (10 * acc + d) true
      | None => if seen then Some acc else None
      end
  end.

(** [Number.parseInt(s, 10)]; [None] is [NaN].  The result is the integer the
    digits denote.  JavaScript rounds it to a double (and reads "-0" as the
    negative zero); rounding is monotone and fixes every integer below 2^53,
    so the comparisons with the bounds of this file (at most 100000) and every
    value that passes them are the same on the integer.  Only the text of an
    out-of-range message can differ, for an integer that is not a double. *)
Definition parseInt (s : string) : option Z :=
  match trimStart s with
  | String "-" r => option_map Z.opp (digits r 0 false)
  | String "+" r => digits r 0 false
  | r => digits r 0 false
  end.

(** A plain decimal numeral, digits only and at least one, and its value;
    used to state what the parsers do on well-written settings. *)
Fixpoint numeralFrom (s : string) (acc : Z) : option Z :=
  match s with
  | EmptyString => Some acc
  | String c s' =>
      match digit c with
      | Some d => numeralFrom s' (10 * acc + d)
      | None => None
      end
  end.

Definition numeralValue (s : string) : option Z :=
  match s with
  | EmptyString => None
  | String _ _ => numeralFrom s 0
  end.

End Js.

(** ** Values handed to the SDK

    Provider options are plain object literals.  An object is the list of
    its own properties in insertion order. *)

#[warnings="-register-all"]
Inductive JsVal : Type :=
| JStr (s : string)
| JInt (n : Z)
| JFloat (f : float)
| JBool (b : bool)
| JArr (items : list JsVal)
| JObj (fields : list (string * JsVal)).

Module Obj.

Definition t := list (string * JsVal).

(** [o[k]] on own properties *)
Fixpoint get (k : string) (o : t) : option JsVal :=
  match o with
  | [] => None
  | (k', v) :: o' => if String.eqb k k' then Some v else get k o'
  end.

(** [o[k] = v]: an existing property keeps its place. *)
Fixpoint set (k : string) (v : JsVal) (o : t) : t :=
  match o with
  | [] => [(k, v)]
  | (k', v') :: o' =>
      if String.eqb k k' then (k', v) :: o' else (k', v') :: set k v o'
  end.

(** [{ ...a, ...b }] *)
Definition spread (a b : t) : t :=
  fold_left (fun acc kv => set (fst kv) (snd kv) acc) b a.

(** [Object.keys(o).length > 0] *)
Definition nonEmpty (o : t) : bool :=
  match o with [] => false | _ :: _ => true end.

End Obj.


(** ** Data model (lines 11-67) *)

(** The closed catalog of provider names, in the order of the type
    declaration, which is also the insertion order of [PROVIDER_ENV_VARS]. *)
Inductive ProviderName : Set :=
| bedrock | openai | anthropic | google | azure | ollama | openrouter
| deepseek | siliconflow | glm | qwen | doubao | qiniu | kimi.

Definition allProviders : list ProviderName :=
  [bedrock; openai; anthropic; google; azure; ollama; openrouter;
   deepseek; siliconflow; glm; qwen; doubao; qiniu; kimi].

(** At run time a provider is a string; these are the literals of the type. *)
Definition providerString (p : ProviderName) : string :=
  match p with
  | bedrock => "bedrock" | openai => "openai" | anthropic => "anthropic"
  | google => "google" | azure => "azure" | ollama => "ollama"
  | openrouter => "openrouter" | deepseek => "deepseek"
  | siliconflow => "siliconflow" | glm => "glm" | qwen => "qwen"
  | doubao => "doubao" | qiniu => "qiniu" | kimi => "kimi"
  end.

(** The [case] label a run-time string hits in a [switch], if any. *)
Definition ofString (s : string) : option ProviderName :=
  List.find (fun p => String.eqb s (providerString p)) allProviders.

Definition ProviderCatalog : list string := map providerString allProviders.

Record ClientOverrides : Set := {
  provider : option string;
  baseUrl : option string;
  apiKey : option string;
  modelId : option string
}.

(** [overrides?.field], for the optional argument of [getAIModel] *)
Definition opt (field : ClientOverrides -> option string)
    (overrides : option ClientOverrides) : option string :=
  match overrides with Some o => field o | None => None end.

Definition ALLOWED_CLIENT_PROVIDERS : list ProviderName :=
  [openai; anthropic; google; azure; openrouter; deepseek; siliconflow;
   glm; qwen; doubao; qiniu; kimi].

Definition BEDROCK_ANTHROPIC_BETA : Obj.t :=
  [("bedrock",
    JObj [("anthropicBeta", JArr [JStr "fine-grained-tool-streaming-2025-05-14"])])].

Definition ANTHROPIC_BETA_HEADERS : list (string * string) :=
  [("anthropic-beta", "fine-grained-tool-streaming-2025-05-14")].

(** [process.env] *)
Abbreviation Env := (gmap string string).

(** The configured client: which SDK entry point was called, and with what. *)
Inductive ModelRef : Set :=
| BedrockModel (region modelId : string)
| OpenAIDefault (modelId : string)
| OpenAIChat (apiKey baseURL : option string) (modelId : string)
| AnthropicModel (apiKey : option string) (baseURL : string)
    (headers : list (string * string)) (modelId : string)
| GoogleDefault (modelId : string)
| GoogleCustom (apiKey baseURL : option string) (modelId : string)
| AzureDefault (modelId : string)
| AzureCustom (apiKey baseURL resourceName : option string) (modelId : string)
| OllamaDefault (modelId : string)
| OllamaCustom (baseURL modelId : string)
| OpenRouterModel (apiKey baseURL : option string) (modelId : string)
| DeepSeekDefault (modelId : string)
| DeepSeekCustom (apiKey baseURL : option string) (modelId : string).

Record ModelConfig : Type := {
  cfg_model : ModelRef;
  cfg_providerOptions : option Obj.t;
  cfg_headers : option (list (string * string));
  cfg_modelId : string
}.

(** ** Errors

    The source throws plain [Error]s; each throw site is a constructor, with
    the values its message interpolates. *)
Inductive Error : Type :=
| ApiKeyRequiredForBaseUrl                          (* line 470 *)
| ModelIdRequiredForCustomProvider                  (* line 484 *)
| AiModelRequired                                   (* line 488 *)
| InvalidProvider (given : string)                  (* line 502 *)
| NoProviderConfigured                              (* line 521 *)
| MultipleProvidersConfigured (configured : list string)  (* line 535 *)
| CredentialRequired (requiredVar given : string)   (* line 415 *)
| AzureEndpointRequired                             (* line 426 *)
| NotAnInteger (varName value : string)             (* line 81 *)
| BelowMinimum (varName : string) (min parsed : Z)  (* line 84 *)
| AboveMaximum (varName : string) (max parsed : Z)  (* line 87 *)
| TopPOutOfRange (value : string)                   (* line 255 *)
| UnknownProvider (given : string).                 (* line 772 *)

(** The taxonomy the specification (section 7) lays over the throw sites. *)
Inductive ErrorKind : Set :=
| SecurityError | UnsupportedProviderError | NoProviderConfiguredError
| AmbiguousProviderError | CredentialError | ConfigurationError.

Definition kindOf (e : Error) : ErrorKind :=
  match e with
  | ApiKeyRequiredForBaseUrl => SecurityError
  | ModelIdRequiredForCustomProvider | AiModelRequired => ConfigurationError
  | InvalidProvider _ | UnknownProvider _ => UnsupportedProviderError
  | NoProviderConfigured => NoProviderConfiguredError
  | MultipleProvidersConfigured _ => AmbiguousProviderError
  | CredentialRequired _ _ | AzureEndpointRequired => CredentialError
  | NotAnInteger _ _ | BelowMinimum _ _ _ | AboveMaximum _ _ _
  | TopPOutOfRange _ => ConfigurationError
  end.

Definition newline : string := String (ascii_of_nat 10) EmptyString.

(** The texts of the two auto-detection failures (lines 521-538). *)
Definition noProviderMessage : string :=
  String.concat newline
    ["No AI provider configured. Please set one of the following API keys in your .env.local file:";
     "- DEEPSEEK_API_KEY for DeepSeek";
     "- OPENAI_API_KEY for OpenAI";
     "- ANTHROPIC_API_KEY for Anthropic";
     "- GOOGLE_GENERATIVE_AI_API_KEY for Google";
     "- AWS_ACCESS_KEY_ID for Bedrock";
     "- OPENROUTER_API_KEY for OpenRouter";
     "- AZURE_API_KEY for Azure";
     "- SILICONFLOW_API_KEY for SiliconFlow";
     "- KIMI_API_KEY for Kimi";
     "Or set AI_PROVIDER=ollama for local Ollama."].

Definition multipleProvidersMessage (configured : list string) : string :=
  ("Multiple AI providers configured (" ++ String.concat ", " configured ++ "). "
   ++ "Please set AI_PROVIDER to specify which one to use.")%string.

Inductive Result (A : Type) : Type :=
| Ok (a : A)
| Err (e : Error).
Arguments Ok {A} a.
Arguments Err {A} e.

Definition bind {A B : Type} (r : Result A) (k : A -> Result B) : Result B :=
  match r with
  | Ok a => k a
  | Err e => Err e
  end.

Notation "x <- r ;; k" := (bind r (fun x => k))
  (at level 100, r at next level, k at level 200, right associativity).
Notation "'check' r ;; k" := (bind r (fun _ => k))
  (at level 100, r at next level, k at level 200, right associativity).

(** ** Reading the environment *)

(** The string of a value already known to be truthy. *)
Definition str (v : option string) : string := default "" v.

(** Truthiness of a [number | undefined]: zero is falsy. *)
Definition numTruthy (n : option Z) : bool :=
  match n with
  | Some n => negb (n =? 0)
  | None => false
  end.

Definition num (n : option Z) : Z := default 0 n.

(** [parseIntSafe] (lines 72-90) *)
Definition parseIntSafe (value : option string) (varName : string)
    (min max : option Z) : Result (option Z) :=
  if negb (Js.truthy value) then Ok None else
  match Js.parseInt (str value) with
  | None => Err (NotAnInteger varName (str value))
  | Some parsed =>
      if match min with Some lo => parsed <? lo | None => false end
      then Err (BelowMinimum varName (num min) parsed)
      else if match max with Some hi => hi <? parsed | None => false end
      then Err (AboveMaximum varName (num max) parsed)
      else Ok (Some parsed)
  end.

(** [if (c) o[k] = v], the conditional assignments of the option builders *)
Definition setIf (c : bool) (k : string) (v : JsVal) (o : Obj.t) : Obj.t :=
  if c then Obj.set k v o else o.

(** ** Provider options (lines 109-356) *)

Section Resolution.

(** [Number.parseFloat], an IEEE double computed by the engine, read by the
    Google sampling settings only. *)
Variable parseFloat : string -> float.

(** [PROVIDER_ENV_VARS] is an object literal, so an index that is not one of
    its own keys still reaches the members of [Object.prototype] (such as
    "constructor" or "toString").  Their values are functions or objects,
    hence truthy; [inheritedMember name] is the string such a value is
    coerced to when it is used as a property key, and [None] for a name that
    [Object.prototype] does not have. *)
Variable inheritedMember : string -> option string.

Definition openaiOptions (env : Env) (modelId : option string) : Obj.t :=
  let reasoningEffort := env !! "OPENAI_REASONING_EFFORT" in
  let reasoningSummary := env !! "OPENAI_REASONING_SUMMARY" in
  if Js.truthy modelId &&
     (Js.includes (str modelId) "o1" || Js.includes (str modelId) "o3"
      || Js.includes (str modelId) "gpt-5")
  then
    [("openai",
      JObj (setIf (Js.truthy reasoningEffort)
              "reasoningEffort" (JStr (str reasoningEffort))
              [("reasoningSummary",
                JStr (str (Js.or_else reasoningSummary (Some "detailed"))))]))]
  else if Js.truthy reasoningEffort || Js.truthy reasoningSummary then
    [("openai",
      JObj (setIf (Js.truthy reasoningSummary)
              "reasoningSummary" (JStr (str reasoningSummary))
              (setIf (Js.truthy reasoningEffort)
                 "reasoningEffort" (JStr (str reasoningEffort)) [])))]
  else [].

Definition anthropicOptions (env : Env) : Result Obj.t :=
  thinkingBudget <- parseIntSafe (env !! "ANTHROPIC_THINKING_BUDGET_TOKENS")
                      "ANTHROPIC_THINKING_BUDGET_TOKENS" (Some 1024) (Some 64000) ;;
  let thinkingType := Js.or_else (env !! "ANTHROPIC_THINKING_TYPE") (Some "enabled") in
  if numTruthy thinkingBudget then
    Ok [("anthropic",
         JObj [("thinking",
                JObj [("type", JStr (str thinkingType));
                      ("budgetTokens", JInt (num thinkingBudget))])])]
  else Ok [].

Definition googleOptions (env : Env) (modelId : option string) : Result Obj.t :=
  let reasoningEffort := env !! "GOOGLE_REASONING_EFFORT" in
  thinkingBudgetVal <- parseIntSafe (env !! "GOOGLE_THINKING_BUDGET")
                         "GOOGLE_THINKING_BUDGET" (Some 1024) (Some 100000) ;;
  let thinkingLevel := env !! "GOOGLE_THINKING_LEVEL" in
  let m := str modelId in
  let options : Obj.t :=
    if Js.truthy modelId &&
       (Js.includes m "gemini-2" || Js.includes m "gemini-3"
        || Js.includes m "gemini2" || Js.includes m "gemini3")
    then
      let thinkingConfig : Obj.t :=
        if numTruthy thinkingBudgetVal && (Js.includes m "2.5" || Js.includes m "2-5")
        then [("includeThoughts", JBool true);
              ("thinkingBudget", JInt (num thinkingBudgetVal))]
        else if Js.truthy thinkingLevel &&
                (Js.includes m "gemini-3" || Js.includes m "gemini3")
        then [("includeThoughts", JBool true);
              ("thinkingLevel", JStr (str thinkingLevel))]
        else [("includeThoughts", JBool true)] in
      [("google", JObj [("thinkingConfig", JObj thinkingConfig)])]
    else if Js.truthy reasoningEffort then
      [("google", JObj [("reasoningEffort", JStr (str reasoningEffort))])]
    else [] in
  candidateCount <- parseIntSafe (env !! "GOOGLE_CANDIDATE_COUNT")
                      "GOOGLE_CANDIDATE_COUNT" (Some 1) (Some 8) ;;
  let options_obj := setIf (numTruthy candidateCount)
                       "candidateCount" (JInt (num candidateCount)) [] in
  topK <- parseIntSafe (env !! "GOOGLE_TOP_K") "GOOGLE_TOP_K" (Some 1) (Some 100) ;;
  let options_obj := setIf (numTruthy topK) "topK" (JInt (num topK)) options_obj in
  options_obj <-
    (if Js.truthy (env !! "GOOGLE_TOP_P") then
       let topP := parseFloat (str (env !! "GOOGLE_TOP_P")) in
       if PrimFloat.is_nan topP || PrimFloat.ltb topP PrimFloat.zero
          || PrimFloat.ltb PrimFloat.one topP
       then Err (TopPOutOfRange (str (env !! "GOOGLE_TOP_P")))
       else Ok (Obj.set "topP" (JFloat topP) options_obj)
     else Ok options_obj) ;;
  if Obj.nonEmpty options_obj then
    let previous : Obj.t :=
      match Obj.get "google" options with
      | Some (JObj g) => g
      | _ => []
      end in
    Ok (Obj.set "google" (JObj (Obj.spread previous options_obj)) options)
  else Ok options.

Definition azureOptions (env : Env) : Obj.t :=
  let reasoningEffort := env !! "AZURE_REASONING_EFFORT" in
  let reasoningSummary := env !! "AZURE_REASONING_SUMMARY" in
  if Js.truthy reasoningEffort || Js.truthy reasoningSummary then
    [("azure",
      JObj (setIf (Js.truthy reasoningSummary)
              "reasoningSummary" (JStr (str reasoningSummary))
              (setIf (Js.truthy reasoningEffort)
                 "reasoningEffort" (JStr (str reasoningEffort)) [])))]
  else [].

Definition bedrockOptions (env : Env) (modelId : option string) : Result Obj.t :=
  budgetTokens <- parseIntSafe (env !! "BEDROCK_REASONING_BUDGET_TOKENS")
                    "BEDROCK_REASONING_BUDGET_TOKENS" (Some 1024) (Some 64000) ;;
  let reasoningEffort := env !! "BEDROCK_REASONING_EFFORT" in
  let m := str modelId in
  if Js.truthy modelId &&
     (numTruthy budgetTokens || Js.truthy reasoningEffort) &&
     (Js.includes m "claude" || Js.includes m "anthropic"
      || Js.includes m "nova" || Js.includes m "amazon")
  then
    let reasoningConfig : Obj.t :=
      if numTruthy budgetTokens &&
         (Js.includes m "claude" || Js.includes m "anthropic")
      then [("type", JStr "enabled"); ("budgetTokens", JInt (num budgetTokens))]
      else if Js.truthy reasoningEffort &&
              (Js.includes m "nova" || Js.includes m "amazon")
      then [("type", JStr "enabled");
            ("maxReasoningEffort", JStr (str reasoningEffort))]
      else [("type", JStr "enabled")] in
    Ok [("bedrock", JObj [("reasoningConfig", JObj reasoningConfig)])]
  else Ok [].

Definition ollamaOptions (env : Env) : Obj.t :=
  match env !! "OLLAMA_ENABLE_THINKING" with
  | Some "true" => [("ollama", JObj [("think", JBool true)])]
  | _ => []
  end.

Definition buildProviderOptions (env : Env) (provider : string)
    (modelId : option string) : Result (option Obj.t) :=
  options <-
    match ofString provider with
    | Some openai => Ok (openaiOptions env modelId)
    | Some anthropic => anthropicOptions env
    | Some google => googleOptions env modelId
    | Some azure => Ok (azureOptions env)
    | Some bedrock => bedrockOptions env modelId
    | Some ollama => Ok (ollamaOptions env)
    | _ => Ok []
    end ;;
  Ok (if Obj.nonEmpty options then Some options else None).

(** ** Credentials (lines 358-432) *)

Definition PROVIDER_ENV_VARS : list (ProviderName * option string) :=
  [(bedrock, None);
   (openai, Some "OPENAI_API_KEY");
   (anthropic, Some "ANTHROPIC_API_KEY");
   (google, Some "GOOGLE_GENERATIVE_AI_API_KEY");
   (azure, Some "AZURE_API_KEY");
   (ollama, None);
   (openrouter, Some "OPENROUTER_API_KEY");
   (deepseek, Some "DEEPSEEK_API_KEY");
   (siliconflow, Some "SILICONFLOW_API_KEY");
   (glm, Some "GLM_API_KEY");
   (qwen, Some "QWEN_API_KEY");
   (doubao, Some "DOUBAO_API_KEY");
   (qiniu, Some "QINIU_API_KEY");
   (kimi, Some "KIMI_API_KEY")].

(** The Azure endpoint settings: [hasBaseUrl || hasResourceName] *)
Definition azureEndpoint (env : Env) : bool :=
  Js.truthy (env !! "AZURE_BASE_URL") || Js.truthy (env !! "AZURE_RESOURCE_NAME").

(** The loop of [detectProvider] (lines 381-400) *)
Definition configuredProviders (env : Env) : list ProviderName :=
  flat_map
    (fun '(p, envVar) =>
       match envVar with
       | None => []
       | Some v =>
           if Js.truthy (env !! v) then
             match p with
             | azure => if azureEndpoint env then [p] else []
             | _ => [p]
             end
           else []
       end)
    PROVIDER_ENV_VARS.

Definition detectProvider (env : Env) : option ProviderName :=
  match configuredProviders env with
  | [p] => Some p
  | _ => None
  end.

(** [PROVIDER_ENV_VARS[provider]] as far as its use goes: [None] when falsy
    ([null] or [undefined]), else the property key it denotes. *)
Definition requiredVarOf (given : string) : option string :=
  match List.find (fun e => String.eqb given (providerString (fst e)))
          PROVIDER_ENV_VARS with
  | Some (_, envVar) => envVar
  | None => inheritedMember given
  end.

Definition validateProviderCredentials (env : Env) (given : string) : Result unit :=
  check (match requiredVarOf given with
         | Some requiredVar =>
             if Js.truthy (env !! requiredVar) then Ok tt
             else Err (CredentialRequired requiredVar given)
         | None => Ok tt
         end) ;;
  if String.eqb given "azure" && negb (azureEndpoint env)
  then Err AzureEndpointRequired
  else Ok tt.

(** ** Resolution (lines 465-783) *)

(** Lines 469-474 *)
Definition securityGate (overrides : option ClientOverrides) : Result unit :=
  if Js.truthy (opt baseUrl overrides) && negb (Js.truthy (opt apiKey overrides))
  then Err ApiKeyRequiredForBaseUrl
  else Ok tt.

(** Line 477 *)
Definition isClientOverride (overrides : option ClientOverrides) : bool :=
  Js.truthy (opt provider overrides) && Js.truthy (opt apiKey overrides).

(** Lines 480-491 *)
Definition resolveModelId (overrides : option ClientOverrides) (env : Env)
    : Result string :=
  let modelId := Js.or_else (opt modelId overrides) (env !! "AI_MODEL") in
  if Js.truthy modelId then Ok (str modelId)
  else if isClientOverride overrides then Err ModelIdRequiredForCustomProvider
  else Err AiModelRequired.

(** The providers named in the second error of auto-detection (lines 516-518) *)
Definition configured (env : Env) : list string :=
  map (fun e => providerString (fst e))
    (List.filter (fun e : ProviderName * option string =>
               Js.truthy (snd e) && Js.truthy (env !! str (snd e)))
       PROVIDER_ENV_VARS).

(** Lines 507-541: the environment steps of the precedence chain *)
Definition selectFromEnvironment (env : Env) : Result string :=
  if Js.truthy (env !! "AI_PROVIDER") then Ok (str (env !! "AI_PROVIDER"))
  else
    match detectProvider env with
    | Some detected => Ok (providerString detected)
    | None =>
        match configured env with
        | [] => Err NoProviderConfigured
        | l => Err (MultipleProvidersConfigured l)
        end
    end.

(** Lines 494-541 *)
Definition selectProvider (overrides : option ClientOverrides) (env : Env)
    : Result string :=
  if Js.truthy (opt provider overrides) then
    let given := str (opt provider overrides) in
    if existsb (fun p => String.eqb given (providerString p)) ALLOWED_CLIENT_PROVIDERS
    then Ok given
    else Err (InvalidProvider given)
  else selectFromEnvironment env.

(** [cond && { baseURL }] under a spread: the property is there when the
    value is truthy *)
Definition whenTruthy (v : option string) : option string :=
  if Js.truthy v then v else None.

(** The client of an OpenAI-compatible provider with a default endpoint *)
Definition compatible (overrides : option ClientOverrides) (env : Env)
    (keyVar urlVar defaultUrl modelId : string) : ModelRef :=
  let apiKey := Js.or_else (opt apiKey overrides) (env !! keyVar) in
  let baseURL := Js.or_else (Js.or_else (opt baseUrl overrides) (env !! urlVar))
                   (Some defaultUrl) in
  OpenAIChat apiKey baseURL modelId.

(** The [switch] of lines 557-775: the client, and the provider options and
    headers it assigns. *)
Definition createModel (overrides : option ClientOverrides) (env : Env)
    (given modelId : string) (customProviderOptions : option Obj.t)
    : Result (ModelRef * option Obj.t * option (list (string * string))) :=
  let overrideKey := opt apiKey overrides in
  let overrideUrl := opt baseUrl overrides in
  match ofString given with
  | Some bedrock =>
      let model :=
        BedrockModel (str (Js.or_else (env !! "AWS_REGION") (Some "us-west-2"))) modelId in
      if Js.includes modelId "anthropic.claude" then
        let beta : Obj.t :=
          match Obj.get "bedrock" BEDROCK_ANTHROPIC_BETA with
          | Some (JObj b) => b
          | _ => []
          end in
        let custom : Obj.t :=
          match customProviderOptions with
          | Some c => match Obj.get "bedrock" c with
                      | Some (JObj b) => b
                      | _ => []
                      end
          | None => []
          end in
        Ok (model, Some [("bedrock", JObj (Obj.spread beta custom))], None)
      else Ok (model, customProviderOptions, None)
  | Some openai =>
      let apiKey := Js.or_else overrideKey (env !! "OPENAI_API_KEY") in
      let baseURL := Js.or_else overrideUrl (env !! "OPENAI_BASE_URL") in
      if Js.truthy baseURL || Js.truthy overrideKey
      then Ok (OpenAIChat apiKey (whenTruthy baseURL) modelId, None, None)
      else Ok (OpenAIDefault modelId, None, None)
  | Some anthropic =>
      let apiKey := Js.or_else overrideKey (env !! "ANTHROPIC_API_KEY") in
      let baseURL :=
        Js.or_else (Js.or_else overrideUrl (env !! "ANTHROPIC_BASE_URL"))
          (Some "https://api.anthropic.com/v1") in
      Ok (AnthropicModel apiKey (str baseURL) ANTHROPIC_BETA_HEADERS modelId,
          None, Some ANTHROPIC_BETA_HEADERS)
  | Some google =>
      let apiKey := Js.or_else overrideKey (env !! "GOOGLE_GENERATIVE_AI_API_KEY") in
      let baseURL := Js.or_else overrideUrl (env !! "GOOGLE_BASE_URL") in
      if Js.truthy baseURL || Js.truthy overrideKey
      then Ok (GoogleCustom apiKey (whenTruthy baseURL) modelId, None, None)
      else Ok (GoogleDefault modelId, None, None)
  | Some azure =>
      let apiKey := Js.or_else overrideKey (env !! "AZURE_API_KEY") in
      let baseURL := Js.or_else overrideUrl (env !! "AZURE_BASE_URL") in
      let resourceName := env !! "AZURE_RESOURCE_NAME" in
      if Js.truthy baseURL || Js.truthy resourceName || Js.truthy overrideKey
      then Ok (AzureCustom apiKey (whenTruthy baseURL)
                 (if Js.truthy baseURL then None else whenTruthy resourceName)
                 modelId, None, None)
      else Ok (AzureDefault modelId, None, None)
  | Some ollama =>
      if Js.truthy (env !! "OLLAMA_BASE_URL")
      then Ok (OllamaCustom (str (env !! "OLLAMA_BASE_URL")) modelId, None, None)
      else Ok (OllamaDefault modelId, None, None)
  | Some openrouter =>
      let apiKey := Js.or_else overrideKey (env !! "OPENROUTER_API_KEY") in
      let baseURL := Js.or_else overrideUrl (env !! "OPENROUTER_BASE_URL") in
      Ok (OpenRouterModel apiKey (whenTruthy baseURL) modelId, None, None)
  | Some deepseek =>
      let apiKey := Js.or_else overrideKey (env !! "DEEPSEEK_API_KEY") in
      let baseURL := Js.or_else overrideUrl (env !! "DEEPSEEK_BASE_URL") in
      if Js.truthy baseURL || Js.truthy overrideKey
      then Ok (DeepSeekCustom apiKey (whenTruthy baseURL) modelId, None, None)
      else Ok (DeepSeekDefault modelId, None, None)
  | Some siliconflow =>
      Ok (compatible overrides env "SILICONFLOW_API_KEY" "SILICONFLOW_BASE_URL"
            "https://api.siliconflow.com/v1" modelId, None, None)
  | Some glm =>
      Ok (compatible overrides env "GLM_API_KEY" "GLM_BASE_URL"
            "https://open.bigmodel.cn/api/paas/v4" modelId, None, None)
  | Some qwen =>
      Ok (compatible overrides env "QWEN_API_KEY" "QWEN_BASE_URL"
            "https://dashscope.aliyun.com/compatible-mode/v1" modelId, None, None)
  | Some doubao =>
      Ok (compatible overrides env "DOUBAO_API_KEY" "DOUBAO_BASE_URL"
            "https://ark.cn-beijing.volces.com/api/v3" modelId, None, None)
  | Some qiniu =>
      Ok (compatible overrides env "QINIU_API_KEY" "QINIU_BASE_URL"
            "https://api.qiniucdn.com/v1" modelId, None, None)
  | Some kimi =>
      Ok (compatible overrides env "KIMI_API_KEY" "KIMI_BASE_URL"
            "https://api.moonshot.cn/v1" modelId, None, None)
  | None => Err (UnknownProvider given)
  end.

(** [getAIModel] (lines 465-783).  The two [console.log] lines write a
    diagnostic and do not take part in the result. *)
Definition getAIModel (overrides : option ClientOverrides) (env : Env)
    : Result ModelConfig :=
  check securityGate overrides ;;
  modelId <- resolveModelId overrides env ;;
  given <- selectProvider overrides env ;;
  check (if isClientOverride overrides then Ok tt
         else validateProviderCredentials env given) ;;
  customProviderOptions <- buildProviderOptions env given (Some modelId) ;;
  built <- createModel overrides env given modelId customProviderOptions ;;
  let '(model, providerOptions, headers) := built in
  let providerOptions :=
    match customProviderOptions, providerOptions with
    | Some _, None =>
        if negb (String.eqb given "bedrock") then customProviderOptions
        else providerOptions
    | _, _ => providerOptions
    end in
  Ok {| cfg_model := model; cfg_providerOptions := providerOptions;
        cfg_headers := headers; cfg_modelId := modelId |}.

End Resolution.

(** ** Prompt caching classification (lines 789-797) *)

Definition supportsPromptCaching (modelId : string) : bool :=
  Js.includes modelId "claude" ||
  Js.includes modelId "anthropic" ||
  Js.startsWith modelId "us.anthropic" ||
  Js.startsWith modelId "eu.anthropic".

(** ** The engine of the examples

    The closed examples below run the model on Node.js.  There the members
    of [Object.prototype] are the twelve names listed, the native functions
    print as "function name() { [native code] }", and the "__proto__"
    accessor yields [Object.prototype] itself. *)
Definition nodeInheritedMember (name : string) : option string :=
  if String.eqb name "__proto__" then Some "[object Object]"
  else if String.eqb name "constructor"
  then Some "function Object() { [native code] }"
  else if existsb (String.eqb name)
            ["__defineGetter__"; "__defineSetter__"; "hasOwnProperty";
             "__lookupGetter__"; "__lookupSetter__"; "isPrototypeOf";
             "propertyIsEnumerable"; "toString"; "valueOf"; "toLocaleString"]
  then Some ("function " ++ name ++ "() { [native code] }")%string
  else None.

(** None of the examples sets GOOGLE_TOP_P, so none consults
    [Number.parseFloat]; they run with the constant [NaN], its value on a
    string that holds no number. *)
Definition parseFloatOfNoNumber : string -> float := fun _ => PrimFloat.nan.

Definition environment (l : list (string * string)) : Env := list_to_map l.

Definition overrides (provider baseUrl apiKey modelId : option string)
    : option ClientOverrides :=
  Some {| provider := provider; baseUrl := baseUrl; apiKey := apiKey;
          modelId := modelId |}.

(** * The settings dialog ([src/components/settings-dialog.tsx])

    The dialog keeps the client overrides in [localStorage].  Its state is
    the React state of the component; an event is one run of an effect or of
    a handler, with the state and the storage it leaves.  [handleSave], which
    waits for the server, and the callbacks into the parent component are
    not part of the model. *)

Module Dialog.

(** [localStorage]: [getItem] is the lookup, [null] being [None]; [setItem]
    is the insertion and [removeItem] the deletion. *)
Abbreviation Storage := (gmap string string).

Definition STORAGE_ACCESS_CODE_KEY : string := "next-ai-draw-io-access-code".
Definition STORAGE_CLOSE_PROTECTION_KEY : string := "next-ai-draw-io-close-protection".
Definition STORAGE_ACCESS_CODE_REQUIRED_KEY : string :=
  "next-ai-draw-io-access-code-required".
Definition STORAGE_AI_PROVIDER_KEY : string := "next-ai-draw-io-ai-provider".
Definition STORAGE_AI_BASE_URL_KEY : string := "next-ai-draw-io-ai-base-url".
Definition STORAGE_AI_API_KEY_KEY : string := "next-ai-draw-io-ai-api-key".
Definition STORAGE_AI_MODEL_KEY : string := "next-ai-draw-io-ai-model".

(** [String(b)], [b.toString()] *)
Definition boolString (b : bool) : string := if b then "true" else "false".

(** Lines 42-47; [window] tells whether there is a browser window. *)
Definition getStoredAccessCodeRequired (window : bool) (localStorage : Storage)
    : option bool :=
  if negb window then None else
  match localStorage !! STORAGE_ACCESS_CODE_REQUIRED_KEY with
  | None => None
  | Some stored => Some (String.eqb stored "true")
  end.

Record State : Set := {
  accessCode : string;
  closeProtection : bool;
  isVerifying : bool;
  error : string;
  accessCodeRequired : bool;
  aiProvider : string;
  aiBaseUrl : string;
  aiApiKey : string;
  aiModelId : string
}.

(** The [useState] initial values (lines 58-68) *)
Definition initial (window : bool) (localStorage : Storage) : State :=
  {| accessCode := ""; closeProtection := true; isVerifying := false;
     error := "";
     accessCodeRequired :=
       default false (getStoredAccessCodeRequired window localStorage);
     aiProvider := ""; aiBaseUrl := ""; aiApiKey := ""; aiModelId := "" |}.

Inductive Event : Set :=
| Mounted (fetched : option bool)
    (* the effect of lines 70-92: [Some required] when /api/config answers,
       [required] being [data?.accessCodeRequired === true]; [None] when the
       request fails *)
| Opened                                  (* the effect of lines 94-113 *)
| AccessCodeTyped (value : string)        (* lines 168-170 *)
| ProviderSelected (value : string)       (* lines 203-212 *)
| ModelTyped (value : string)             (* lines 265-271 *)
| ApiKeyTyped (value : string)            (* lines 309-315 *)
| BaseUrlTyped (value : string)           (* lines 362-368 *)
| Cleared                                 (* lines 395-412 *)
| CloseProtectionSwitched (checked : bool). (* lines 468-475 *)

Definition step (e : Event) (s : State * Storage) : State * Storage :=
  let '(st, localStorage) := s in
  match e with
  | Mounted fetched =>
      match getStoredAccessCodeRequired true localStorage with
      | Some _ => (st, localStorage)
      | None =>
          match fetched with
          | Some required =>
              ({| accessCode := accessCode st;
                  closeProtection := closeProtection st;
                  isVerifying := isVerifying st; error := error st;
                  accessCodeRequired := required;
                  aiProvider := aiProvider st; aiBaseUrl := aiBaseUrl st;
                  aiApiKey := aiApiKey st; aiModelId := aiModelId st |},
               <[STORAGE_ACCESS_CODE_REQUIRED_KEY := boolString required]>
                 localStorage)
          | None =>
              ({| accessCode := accessCode st;
                  closeProtection := closeProtection st;
                  isVerifying := isVerifying st; error := error st;
                  accessCodeRequired := false;
                  aiProvider := aiProvider st; aiBaseUrl := aiBaseUrl st;
                  aiApiKey := aiApiKey st; aiModelId := aiModelId st |},
               localStorage)
          end
      end
  | Opened =>
      ({| accessCode := str (localStorage !! STORAGE_ACCESS_CODE_KEY);
          closeProtection :=
            match localStorage !! STORAGE_CLOSE_PROTECTION_KEY with
            | Some stored => negb (String.eqb stored "false")
            | None => true
            end;
          isVerifying := isVerifying st; error := "";
          accessCodeRequired := accessCodeRequired st;
          aiProvider := str (localStorage !! STORAGE_AI_PROVIDER_KEY);
          aiBaseUrl := str (localStorage !! STORAGE_AI_BASE_URL_KEY);
          aiApiKey := str (localStorage !! STORAGE_AI_API_KEY_KEY);
          aiModelId := str (localStorage !! STORAGE_AI_MODEL_KEY) |},
       localStorage)
  | AccessCodeTyped value =>
      ({| accessCode := value; closeProtection := closeProtection st;
          isVerifying := isVerifying st; error := error st;
          accessCodeRequired := accessCodeRequired st;
          aiProvider := aiProvider st; aiBaseUrl := aiBaseUrl st;
          aiApiKey := aiApiKey st; aiModelId := aiModelId st |},
       localStorage)
  | ProviderSelected value =>
      let actualValue := if String.eqb value "default" then "" else value in
      ({| accessCode := accessCode st; closeProtection := closeProtection st;
          isVerifying := isVerifying st; error := error st;
          accessCodeRequired := accessCodeRequired st;
          aiProvider := actualValue; aiBaseUrl := aiBaseUrl st;
          aiApiKey := aiApiKey st; aiModelId := aiModelId st |},
       <[STORAGE_AI_PROVIDER_KEY := actualValue]> localStorage)
  | ModelTyped value =>
      ({| accessCode := accessCode st; closeProtection := closeProtection st;
          isVerifying := isVerifying st; error := error st;
          accessCodeRequired := accessCodeRequired st;
          aiProvider := aiProvider st; aiBaseUrl := aiBaseUrl st;
          aiApiKey := aiApiKey st; aiModelId := value |},
       <[STORAGE_AI_MODEL_KEY := value]> localStorage)
  | ApiKeyTyped value =>
      ({| accessCode := accessCode st; closeProtection := closeProtection st;
          isVerifying := isVerifying st; error := error st;
          accessCodeRequired := accessCodeRequired st;
          aiProvider := aiProvider st; aiBaseUrl := aiBaseUrl st;
          aiApiKey := value; aiModelId := aiModelId st |},
       <[STORAGE_AI_API_KEY_KEY := value]> localStorage)
  | BaseUrlTyped value =>
      ({| accessCode := accessCode st; closeProtection := closeProtection st;
          isVerifying := isVerifying st; error := error st;
          accessCodeRequired := accessCodeRequired st;
          aiProvider := aiProvider st; aiBaseUrl := value;
          aiApiKey := aiApiKey st; aiModelId := aiModelId st |},
       <[STORAGE_AI_BASE_URL_KEY := value]> localStorage)
  | Cleared =>
      ({| accessCode := accessCode st; closeProtection := closeProtection st;
          isVerifying := isVerifying st; error := error st;
          accessCodeRequired := accessCodeRequired st;
          aiProvider := ""; aiBaseUrl := ""; aiApiKey := ""; aiModelId := "" |},
       delete STORAGE_AI_MODEL_KEY
         (delete STORAGE_AI_API_KEY_KEY
            (delete STORAGE_AI_BASE_URL_KEY
               (delete STORAGE_AI_PROVIDER_KEY localStorage))))
  | CloseProtectionSwitched checked =>
      ({| accessCode := accessCode st; closeProtection := checked;
          isVerifying := isVerifying st; error := error st;
          accessCodeRequired := accessCodeRequired st;
          aiProvider := aiProvider st; aiBaseUrl := aiBaseUrl st;
          aiApiKey := aiApiKey st; aiModelId := aiModelId st |},
       <[STORAGE_CLOSE_PROTECTION_KEY := boolString checked]> localStorage)
  end.

(** The events of a session, in order *)
Definition run (events : list Event) (s : State * Storage) : State * Storage :=
  fold_left (fun s e => step e s) events s.

(** The settings the dialog shows and keeps in the storage *)
Definition settings (st : State) : string * string * string * string * bool :=
  (aiProvider st, aiBaseUrl st, aiApiKey st, aiModelId st, closeProtection st).

(** The [value] of the provider select (line 202) *)
Definition selectValue (st : State) : string :=
  if String.eqb (aiProvider st) "" then "default" else aiProvider st.

(** The [SelectItem] values (lines 216-254) *)
Definition providerItems : list string :=
  ["default"; "openai"; "anthropic"; "google"; "azure"; "openrouter";
   "deepseek"; "siliconflow"; "glm"; "qwen"; "doubao"; "qiniu"; "kimi"].

(** The variable the key field says it overrides (lines 320-356) *)
Definition apiKeyHint (provider : string) : string :=
  if String.eqb provider "openai" then "OPENAI_API_KEY"
  else if String.eqb provider "anthropic" then "ANTHROPIC_API_KEY"
  else if String.eqb provider "google" then "GOOGLE_GENERATIVE_AI_API_KEY"
  else if String.eqb provider "azure" then "AZURE_API_KEY"
  else if String.eqb provider "openrouter" then "OPENROUTER_API_KEY"
  else if String.eqb provider "deepseek" then "DEEPSEEK_API_KEY"
  else if String.eqb provider "siliconflow" then "SILICONFLOW_API_KEY"
  else if String.eqb provider "glm" then "GLM_API_KEY"
  else if String.eqb provider "qwen" then "QWEN_API_KEY"
  else if String.eqb provider "doubao" then "DOUBAO_API_KEY"
  else if String.eqb provider "qiniu" then "QINIU_API_KEY"
  else if String.eqb provider "kimi" then "KIMI_API_KEY"
  else "server API key".


End Dialog.

(** ** Facts about the string primitives *)

Lemma startsWith_app (s p : string) :
  Js.startsWith s p = true <-> exists t, s = (p ++ t)%string.
Proof.
  revert s; induction p as [|c p IH]; intros s; simpl.
  - split; [intros _; now exists s | reflexivity].
  - destruct s as [|d s]; simpl.
    + split; [discriminate | intros [t Ht]; discriminate].
    + destruct (Ascii.eqb_spec c d) as [->|Hne].
      * rewrite IH. split; intros [t Ht]; exists t.
        -- now rewrite Ht.
        -- now injection Ht.
      * split; [discriminate | intros [t Ht]; injection Ht; congruence].
Qed.

Lemma includes_app (s sub : string) :
  Js.includes s sub = true <-> exists a b, s = (a ++ sub ++ b)%string.
Proof.
  induction s as [|d s IH].
  - cbn [Js.includes]. rewrite orb_false_r, startsWith_app. split.
    + intros [t Ht]. now exists EmptyString, t.
    + intros [a [b H]]. destruct a; simpl in H; [now exists b | discriminate].
  - cbn [Js.includes]. rewrite orb_true_iff, startsWith_app, IH. split.
    + intros [[t Ht] | [a [b H]]].
      * now exists EmptyString, t.
      * exists (String d a), b. now rewrite H.
    + intros [a [b H]]. destruct a as [|e a]; simpl in H.
      * left. now exists b.
      * right. exists a, b. now injection H.
Qed.

Lemma append_cons (x : ascii) (a b : string) :
  (String x a ++ b = String x (a ++ b))%string.
Proof. reflexivity. Qed.

Lemma append_assoc (a b c : string) :
  ((a ++ b) ++ c = a ++ (b ++ c))%string.
Proof.
  induction a as [|x a IH]; [reflexivity|].
  now rewrite !append_cons, IH.
Qed.

Lemma startsWith_includes (s pre sub post : string) :
  Js.startsWith s (pre ++ sub ++ post) = true -> Js.includes s sub = true.
Proof.
  rewrite startsWith_app, includes_app. intros [t ->].
  exists pre, (post ++ t)%string.
  now rewrite !append_assoc.
Qed.

(** C10: [supportsPromptCaching m] is true exactly when [m] contains
    "claude" or "anthropic"; the two [startsWith] tests never change the
    result.  The function takes the identifier alone, so the classification
    cannot depend on the provider or on the environment. *)
Theorem supportsPromptCaching_iff_includes (m : string) :
  supportsPromptCaching m = (Js.includes m "claude" || Js.includes m "anthropic")
  /\ (supportsPromptCaching m = true <->
      exists a b, m = (a ++ "claude" ++ b)%string \/ m = (a ++ "anthropic" ++ b)%string).
Proof.
  assert (E : supportsPromptCaching m
              = (Js.includes m "claude" || Js.includes m "anthropic")).
  { unfold supportsPromptCaching.
    destruct (Js.includes m "anthropic") eqn:Ha.
    - now rewrite orb_true_r.
    - rewrite orb_false_r.
      destruct (Js.startsWith m "us.anthropic") eqn:Hus.
      + apply (startsWith_includes m "us." "anthropic" "") in Hus. congruence.
      + destruct (Js.startsWith m "eu.anthropic") eqn:Heu.
        * apply (startsWith_includes m "eu." "anthropic" "") in Heu. congruence.
        * now rewrite !orb_false_r. }
  split; [exact E|].
  rewrite E, orb_true_iff, !includes_app. split.
  - intros [[a [b H]] | [a [b H]]]; exists a, b; auto.
  - intros [a [b [H | H]]]; [left | right]; now exists a, b.
Qed.

(** ** Which errors each stage can raise *)

Ltac inv_result :=
  match goal with
  | H : Ok _ = Err _ |- _ => discriminate H
  | H : Err _ = Ok _ |- _ => discriminate H
  | H : Err _ = Err _ |- _ => injection H as <-
  | H : Ok _ = Ok _ |- _ => injection H as <-
  end.

Lemma bind_Ok {A B : Type} (r : Result A) (k : A -> Result B) (b : B) :
  bind r k = Ok b -> exists a, r = Ok a /\ k a = Ok b.
Proof. destruct r as [a|e]; cbn; [eauto | discriminate]. Qed.

Lemma bind_Err {A B : Type} (r : Result A) (k : A -> Result B) (e : Error) :
  bind r k = Err e -> r = Err e \/ exists a, r = Ok a /\ k a = Err e.
Proof. destruct r as [a|e']; cbn; [eauto | intros [= ->]; now left]. Qed.

Lemma parseIntSafe_Err value varName min max e :
  parseIntSafe value varName min max = Err e -> kindOf e = ConfigurationError.
Proof.
  unfold parseIntSafe.
  repeat match goal with
         | |- context [if ?c then _ else _] => destruct c
         | |- context [match Js.parseInt ?s with _ => _ end] => destruct (Js.parseInt s)
         end; intros H; inv_result; reflexivity.
Qed.

Section Stages.

Context (parseFloat : string -> float) (inheritedMember : string -> option string).

Lemma resolveModelId_Err o env e :
  resolveModelId o env = Err e -> kindOf e = ConfigurationError.
Proof.
  unfold resolveModelId.
  destruct (Js.truthy _); [discriminate|].
  destruct (isClientOverride o); intros H; inv_result; reflexivity.
Qed.

Lemma selectProvider_Err o env e :
  selectProvider o env = Err e ->
  kindOf e = UnsupportedProviderError \/ kindOf e = NoProviderConfiguredError
  \/ kindOf e = AmbiguousProviderError.
Proof.
  unfold selectProvider, selectFromEnvironment.
  repeat match goal with
         | |- context [if ?c then _ else _] => destruct c
         | |- context [match detectProvider ?x with _ => _ end] => destruct (detectProvider x)
         | |- context [match configured ?x with _ => _ end] => destruct (configured x)
         end; intros H; inv_result; cbn; auto.
Qed.

Lemma validateProviderCredentials_Err env given e :
  validateProviderCredentials inheritedMember env given = Err e ->
  kindOf e = CredentialError.
Proof.
  unfold validateProviderCredentials.
  destruct (requiredVarOf inheritedMember given) as [v|]; cbn [bind].
  - destruct (Js.truthy (env !! v)); cbn [bind].
    + destruct (_ && _); intros H; inv_result; reflexivity.
    + intros H; inv_result; reflexivity.
  - destruct (_ && _); intros H; inv_result; reflexivity.
Qed.

Lemma googleOptions_Err env m e :
  googleOptions parseFloat env m = Err e -> kindOf e = ConfigurationError.
Proof.
  unfold googleOptions. intros H.
  repeat match type of H with
         | bind (parseIntSafe ?a ?b ?c ?d) _ = _ =>
             let E := fresh "E" in
             destruct (parseIntSafe a b c d) eqn:E;
             [cbn [bind] in H | cbn [bind] in H; inv_result;
                                now apply parseIntSafe_Err in E]
         end.
  destruct (Js.truthy (env !! "GOOGLE_TOP_P")); cbn [bind] in H.
  - destruct (_ || _); cbn [bind] in H.
    + inv_result; reflexivity.
    + destruct (Obj.nonEmpty _); discriminate.
  - destruct (Obj.nonEmpty _); discriminate.
Qed.

Lemma buildProviderOptions_Err env given m e :
  buildProviderOptions parseFloat env given m = Err e ->
  kindOf e = ConfigurationError.
Proof.
  unfold buildProviderOptions. intros H.
  apply bind_Err in H as [H | (a & _ & H)]; [|discriminate].
  destruct (ofString given) as [[]|]; try discriminate.
  - unfold bedrockOptions in H.
    apply bind_Err in H as [H | (a & _ & H)].
    + now apply parseIntSafe_Err in H.
    + destruct (_ && _); discriminate.
  - unfold anthropicOptions in H.
    apply bind_Err in H as [H | (a & _ & H)].
    + now apply parseIntSafe_Err in H.
    + destruct (numTruthy a); discriminate.
  - now apply googleOptions_Err in H.
Qed.

Lemma createModel_Err o env given m c e :
  createModel o env given m c = Err e -> e = UnknownProvider given.
Proof.
  unfold createModel.
  destruct (ofString given) as [[]|];
    repeat match goal with
           | |- context [if ?c then _ else _] => destruct c
           end; intros H; inv_result; reflexivity.
Qed.

(** Every error of a resolution is the error of one of its stages. *)
Lemma getAIModel_Err o env e :
  getAIModel parseFloat inheritedMember o env = Err e ->
  securityGate o = Err e \/
  securityGate o = Ok tt /\
  (kindOf e = ConfigurationError \/ kindOf e = UnsupportedProviderError \/
   kindOf e = NoProviderConfiguredError \/ kindOf e = AmbiguousProviderError \/
   kindOf e = CredentialError).
Proof.
  unfold getAIModel. intros H.
  apply bind_Err in H as [H | ([] & Hg & H)]; [now left | right].
  split; [exact Hg|].
  apply bind_Err in H as [H | (m & _ & H)].
  { apply resolveModelId_Err in H; auto. }
  apply bind_Err in H as [H | (given & _ & H)].
  { apply selectProvider_Err in H; tauto. }
  apply bind_Err in H as [H | ([] & _ & H)].
  { destruct (isClientOverride o); [discriminate|].
    apply validateProviderCredentials_Err in H; tauto. }
  apply bind_Err in H as [H | (c & _ & H)].
  { apply buildProviderOptions_Err in H; auto. }
  apply bind_Err in H as [H | ([[model po] hd] & _ & H)].
  { apply createModel_Err in H; subst e; cbn; auto. }
  discriminate.
Qed.

End Stages.

(** ** The security gate *)

(** C1: when [baseUrl] is present and [apiKey] is absent, resolution fails
    with the security error whatever the environment and the other fields
    of the overrides are, so no other check comes first; when [apiKey] is
    present or [baseUrl] is absent the gate passes, and no later failure of
    the resolution is a security error. *)
Theorem security_gate_first
    (parseFloat : string -> float) (inheritedMember : string -> option string)
    (o : option ClientOverrides) (env : Env) :
  (Js.truthy (opt baseUrl o) = true /\ Js.truthy (opt apiKey o) = false ->
   getAIModel parseFloat inheritedMember o env = Err ApiKeyRequiredForBaseUrl
   /\ kindOf ApiKeyRequiredForBaseUrl = SecurityError)
  /\
  (Js.truthy (opt apiKey o) = true \/ Js.truthy (opt baseUrl o) = false ->
   securityGate o = Ok tt
   /\ forall e, getAIModel parseFloat inheritedMember o env = Err e ->
                kindOf e <> SecurityError).
Proof.
  split.
  - intros [Hb Hk]. split; [|reflexivity].
    unfold getAIModel, securityGate. now rewrite Hb, Hk.
  - intros H.
    assert (G : securityGate o = Ok tt).
    { unfold securityGate.
      destruct H as [-> | ->]; [now rewrite andb_false_r | reflexivity]. }
    split; [exact G|].
    intros e He. apply getAIModel_Err in He as [He | [_ He]].
    + congruence.
    + intros K. rewrite K in He. intuition discriminate.
Qed.

Lemma security_gate_first_witness :
  getAIModel parseFloatOfNoNumber nodeInheritedMember
    (overrides (Some "openai") (Some "https://evil.example") None (Some "gpt-4o"))
    (environment [("AI_PROVIDER", "openai"); ("OPENAI_API_KEY", "sk-server")])
  = Err ApiKeyRequiredForBaseUrl
  /\ securityGate
       (overrides (Some "openai") (Some "https://proxy.example")
          (Some "sk-client") (Some "gpt-4o"))
     = Ok tt.
Proof.
  split.
  - apply (proj1 (security_gate_first parseFloatOfNoNumber nodeInheritedMember _ _)).
    split; reflexivity.
  - apply (proj2 (security_gate_first parseFloatOfNoNumber nodeInheritedMember _
                    (environment []))).
    left; reflexivity.
Defined.

(** ** Provider selection *)

Lemma includes_names (given : string) (l : list ProviderName) :
  existsb (fun p => String.eqb given (providerString p)) l = true
  <-> In given (map providerString l).
Proof.
  rewrite existsb_exists, in_map_iff. split.
  - intros (p & Hp & E). apply String.eqb_eq in E. eauto.
  - intros (p & E & Hp). exists p. split; [exact Hp|].
    now apply String.eqb_eq.
Qed.

(** C2, as stated, fails: with a provider override and no API key the
    override is selected, although the environment steps would select the
    provider of AI_PROVIDER. *)
Lemma override_without_key_counterexample :
  let o := overrides (Some "anthropic") None None None in
  let env := environment [("AI_PROVIDER", "openai"); ("AI_MODEL", "gpt-4o")] in
  Js.truthy (opt provider o) = true
  /\ Js.truthy (opt apiKey o) = false
  /\ selectFromEnvironment env = Ok "openai"
  /\ selectProvider o env = Ok "anthropic".
Proof. repeat split. Qed.

(** C2, amended: the client override governs whenever [overrides.provider]
    is present, whether or not [overrides.apiKey] is; the name must be in the
    client-allowed set, else the resolution fails with
    UnsupportedProviderError; selection falls through to the environment
    steps exactly when [overrides.provider] is absent. *)
Theorem override_selection (o : option ClientOverrides) (env : Env) :
  (Js.truthy (opt provider o) = true ->
   In (str (opt provider o)) (map providerString ALLOWED_CLIENT_PROVIDERS) ->
   selectProvider o env = Ok (str (opt provider o)))
  /\
  (Js.truthy (opt provider o) = true ->
   ~ In (str (opt provider o)) (map providerString ALLOWED_CLIENT_PROVIDERS) ->
   selectProvider o env = Err (InvalidProvider (str (opt provider o)))
   /\ kindOf (InvalidProvider (str (opt provider o))) = UnsupportedProviderError)
  /\
  (Js.truthy (opt provider o) = false ->
   selectProvider o env = selectFromEnvironment env).
Proof.
  unfold selectProvider. split; [|split].
  - intros -> Hin. apply includes_names in Hin. now rewrite Hin.
  - intros -> Hout. split; [|reflexivity].
    destruct (existsb _ ALLOWED_CLIENT_PROVIDERS) eqn:E; [|reflexivity].
    apply includes_names in E. contradiction.
  - intros ->. reflexivity.
Qed.

Lemma override_selection_witness :
  let env := environment [("AI_PROVIDER", "openai"); ("AI_MODEL", "gpt-4o")] in
  selectProvider (overrides (Some "anthropic") None None None) env
  = Ok "anthropic"
  /\ selectProvider (overrides (Some "bedrock") None (Some "sk-client") None) env
     = Err (InvalidProvider "bedrock")
  /\ selectProvider None env = selectFromEnvironment env.
Proof.
  intros env. split; [|split].
  - refine (proj1 (override_selection
                     (overrides (Some "anthropic") None None None) env) eq_refl _).
    cbn. tauto.
  - refine (proj1 (proj1 (proj2 (override_selection
                     (overrides (Some "bedrock") None (Some "sk-client") None) env))
                     eq_refl _)).
    cbn. intros H.
    repeat (destruct H as [H | H]; [discriminate H|]). exact H.
  - exact (proj2 (proj2 (override_selection None env)) eq_refl).
Defined.

(** ** Auto-detection *)

Section AutoDetection.

Variable env : Env.

(** The providers that qualify are the configured ones, Azure being dropped
    when it has no endpoint setting.  Stated for any table whose variable
    names are not empty, as those of [PROVIDER_ENV_VARS] are. *)
Lemma qualifying_configured (table : list (ProviderName * option string)) :
  Forall (fun e => snd e <> Some "") table ->
  map providerString
    (flat_map
       (fun '(p, envVar) =>
          match envVar with
          | None => []
          | Some v =>
              if Js.truthy (env !! v) then
                match p with
                | azure => if azureEndpoint env then [p] else []
                | _ => [p]
                end
              else []
          end) table)
  = List.filter (fun n => negb (String.eqb n "azure") || azureEndpoint env)
      (map (fun e => providerString (fst e))
         (List.filter (fun e : ProviderName * option string =>
                         Js.truthy (snd e) && Js.truthy (env !! str (snd e)))
            table)).
Proof.
  induction 1 as [|[p [v|]] table Hv _ IH]; [reflexivity| |exact IH].
  cbn [flat_map List.filter snd fst]. change (str (Some v)) with v.
  assert (T : Js.truthy (Some v) = true).
  { destruct v; [now contradiction Hv | reflexivity]. }
  rewrite T, andb_true_l.
  destruct (Js.truthy (env !! v)); [|exact IH].
  rewrite map_app, IH. cbn [map List.filter fst].
  destruct p; try reflexivity.
  change (negb ("azure" =? "azure")%string) with false.
  now destruct (azureEndpoint env).
Qed.

Lemma table_names_not_empty :
  Forall (fun e : ProviderName * option string => snd e <> Some "")
    PROVIDER_ENV_VARS.
Proof. repeat constructor; discriminate. Qed.

Lemma configuredProviders_configured :
  map providerString (configuredProviders env)
  = List.filter (fun n => negb (String.eqb n "azure") || azureEndpoint env)
      (configured env).
Proof. exact (qualifying_configured _ table_names_not_empty). Qed.

Lemma azure_configured :
  In "azure" (configured env) <-> Js.truthy (env !! "AZURE_API_KEY") = true.
Proof.
  unfold configured. rewrite in_map_iff. split.
  - intros (e & Hn & He). apply filter_In in He as [He Ht].
    cbn in He.
    repeat (destruct He as [<- | He]; [try discriminate Hn|]);
      [exact Ht | contradiction].
  - intros Ht. exists (azure, Some "AZURE_API_KEY"). split; [reflexivity|].
    apply filter_In. split; [cbn; tauto | exact Ht].
Qed.

Variable o : option ClientOverrides.
Hypothesis no_override : Js.truthy (opt provider o) = false.
Hypothesis no_setting : Js.truthy (env !! "AI_PROVIDER") = false.

(** Exactly one provider qualifies: it is selected. *)
Lemma auto_detect_unique (p : ProviderName) :
  configuredProviders env = [p] ->
  selectProvider o env = Ok (providerString p).
Proof.
  intros H. unfold selectProvider, selectFromEnvironment, detectProvider.
  now rewrite no_override, no_setting, H.
Qed.

(** More than one qualify: the failure lists them all. *)
Lemma auto_detect_many :
  (2 <= length (configuredProviders env))%nat ->
  selectProvider o env = Err (MultipleProvidersConfigured (configured env))
  /\ incl (map providerString (configuredProviders env)) (configured env).
Proof.
  intros H.
  assert (I : incl (map providerString (configuredProviders env)) (configured env)).
  { rewrite configuredProviders_configured. intros n Hn.
    now apply filter_In in Hn. }
  split; [|exact I].
  unfold selectProvider, selectFromEnvironment, detectProvider.
  rewrite no_override, no_setting.
  destruct (configuredProviders env) as [|p [|q l]] eqn:E;
    [cbn in H; lia | cbn in H; lia |].
  destruct (configured env) as [|n c]; [|reflexivity].
  destruct (I (providerString p)). now left.
Qed.

(** None qualifies and the Azure key is not set: no provider is configured. *)
Lemma auto_detect_none :
  configuredProviders env = [] ->
  Js.truthy (env !! "AZURE_API_KEY") = false ->
  selectProvider o env = Err NoProviderConfigured.
Proof.
  intros H Hz.
  unfold selectProvider, selectFromEnvironment, detectProvider.
  rewrite no_override, no_setting, H.
  pose proof configuredProviders_configured as F. rewrite H in F. cbn [map] in F.
  destruct (configured env) as [|n c] eqn:E; [reflexivity|].
  cbn [List.filter] in F.
  destruct (String.eqb_spec n "azure") as [->|_]; [|discriminate F].
  assert (A : In "azure" (configured env)) by (rewrite E; now left).
  apply azure_configured in A. congruence.
Qed.

(** None qualifies but the Azure key is set, without an endpoint setting:
    the failure is the one for several configured providers. *)
Lemma auto_detect_azure_without_endpoint :
  configuredProviders env = [] ->
  Js.truthy (env !! "AZURE_API_KEY") = true ->
  exists l, In "azure" l /\
            selectProvider o env = Err (MultipleProvidersConfigured l).
Proof.
  intros H Hz. exists (configured env).
  apply azure_configured in Hz. split; [exact Hz|].
  unfold selectProvider, selectFromEnvironment, detectProvider.
  rewrite no_override, no_setting, H.
  destruct (configured env); [contradiction | reflexivity].
Qed.

End AutoDetection.

(** The message for no configured provider names nine variables; the
    variables of glm, qwen, doubao and qiniu are not among them. *)
Lemma noProviderMessage_names :
  forallb (Js.includes noProviderMessage)
    ["DEEPSEEK_API_KEY"; "OPENAI_API_KEY"; "ANTHROPIC_API_KEY";
     "GOOGLE_GENERATIVE_AI_API_KEY"; "AWS_ACCESS_KEY_ID"; "OPENROUTER_API_KEY";
     "AZURE_API_KEY"; "SILICONFLOW_API_KEY"; "KIMI_API_KEY"] = true
  /\ existsb (Js.includes noProviderMessage)
       ["GLM_API_KEY"; "QWEN_API_KEY"; "DOUBAO_API_KEY"; "QINIU_API_KEY"] = false.
Proof. split; vm_compute; reflexivity. Qed.

(** C3 at the input where it fails: only AZURE_API_KEY is set, without
    AZURE_BASE_URL or AZURE_RESOURCE_NAME.  No provider qualifies for
    auto-detection, yet the resolution does not fail with the error for no
    configured provider but with the one for several, listing Azure alone. *)
Theorem azure_key_alone_reported_as_multiple
    (parseFloat : string -> float) (inheritedMember : string -> option string) :
  let env := environment [("AI_MODEL", "gpt-4o"); ("AZURE_API_KEY", "key")] in
  configuredProviders env = []
  /\ detectProvider env = None
  /\ getAIModel parseFloat inheritedMember None env
     = Err (MultipleProvidersConfigured ["azure"])
  /\ kindOf (MultipleProvidersConfigured ["azure"]) = AmbiguousProviderError
  /\ multipleProvidersMessage ["azure"]
     = "Multiple AI providers configured (azure). Please set AI_PROVIDER to specify which one to use.".
Proof. repeat split. Qed.

(** ** Credential validation *)

Lemma validate_azure_without_endpoint
    (inheritedMember : string -> option string) (env : Env) :
  Js.truthy (env !! "AZURE_API_KEY") = true ->
  azureEndpoint env = false ->
  validateProviderCredentials inheritedMember env "azure" = Err AzureEndpointRequired.
Proof.
  intros Hk He. unfold validateProviderCredentials.
  change (requiredVarOf inheritedMember "azure") with (Some "AZURE_API_KEY").
  cbv beta iota. rewrite Hk. cbn [bind].
  change ("azure" =? "azure")%string with true.
  now rewrite He.
Qed.

(** C4: on every path that selects Azure without a client override (the
    explicit AI_PROVIDER setting, or a provider override that comes without
    an API key), AZURE_API_KEY being set while neither AZURE_BASE_URL nor
    AZURE_RESOURCE_NAME is, the resolution fails with a credential error. *)
Theorem azure_requires_endpoint
    (parseFloat : string -> float) (inheritedMember : string -> option string)
    (o : option ClientOverrides) (env : Env) (m : string) :
  securityGate o = Ok tt ->
  resolveModelId o env = Ok m ->
  selectProvider o env = Ok "azure" ->
  isClientOverride o = false ->
  Js.truthy (env !! "AZURE_API_KEY") = true ->
  Js.truthy (env !! "AZURE_BASE_URL") = false ->
  Js.truthy (env !! "AZURE_RESOURCE_NAME") = false ->
  getAIModel parseFloat inheritedMember o env = Err AzureEndpointRequired
  /\ kindOf AzureEndpointRequired = CredentialError.
Proof.
  intros Hg Hm Hs Hc Hk Hb Hr. split; [|reflexivity].
  unfold getAIModel. rewrite Hg, Hm, Hs, Hc. cbn [bind].
  rewrite validate_azure_without_endpoint; [reflexivity | exact Hk |].
  unfold azureEndpoint. now rewrite Hb, Hr.
Qed.

Lemma azure_requires_endpoint_witness :
  getAIModel parseFloatOfNoNumber nodeInheritedMember None
    (environment [("AI_PROVIDER", "azure"); ("AI_MODEL", "gpt-4o");
                  ("AZURE_API_KEY", "key")])
  = Err AzureEndpointRequired
  /\ getAIModel parseFloatOfNoNumber nodeInheritedMember
       (overrides (Some "azure") None None None)
       (environment [("AI_MODEL", "gpt-4o"); ("AZURE_API_KEY", "key")])
     = Err AzureEndpointRequired.
Proof.
  split.
  - refine (proj1 (azure_requires_endpoint parseFloatOfNoNumber nodeInheritedMember
                     None
                     (environment [("AI_PROVIDER", "azure"); ("AI_MODEL", "gpt-4o");
                                   ("AZURE_API_KEY", "key")])
                     "gpt-4o" _ _ _ _ _ _ _)); reflexivity.
  - refine (proj1 (azure_requires_endpoint parseFloatOfNoNumber nodeInheritedMember
                     (overrides (Some "azure") None None None)
                     (environment [("AI_MODEL", "gpt-4o"); ("AZURE_API_KEY", "key")])
                     "gpt-4o" _ _ _ _ _ _ _)); reflexivity.
Defined.

(** ** The catalog *)

Lemma providerString_in_catalog (p : ProviderName) :
  In (providerString p) ProviderCatalog.
Proof. apply in_map. destruct p; cbn; tauto. Qed.

Lemma ofString_Some (s : string) (p : ProviderName) :
  ofString s = Some p -> s = providerString p.
Proof.
  unfold ofString. intros H. apply find_some in H as [_ H].
  now apply String.eqb_eq.
Qed.

Lemma ofString_None (s : string) :
  ofString s = None <-> ~ In s ProviderCatalog.
Proof.
  split.
  - intros H Hin. apply in_map_iff in Hin as (p & <- & Hp).
    apply (find_none _ _ H) in Hp. now rewrite String.eqb_refl in Hp.
  - intros H. destruct (ofString s) as [p|] eqn:E; [|reflexivity].
    apply ofString_Some in E as ->. destruct H. apply providerString_in_catalog.
Qed.

Lemma requiredVarOf_outside_catalog
    (inheritedMember : string -> option string) (given : string) :
  ~ In given ProviderCatalog ->
  requiredVarOf inheritedMember given = inheritedMember given.
Proof.
  intros H. unfold requiredVarOf.
  destruct (List.find _ PROVIDER_ENV_VARS) as [[p v]|] eqn:E; [|reflexivity].
  apply find_some in E as [_ E]. apply String.eqb_eq in E. cbn in E. subst given.
  destruct H. apply providerString_in_catalog.
Qed.

(** The client-override and auto-detection steps select catalog members. *)
Lemma selectProvider_in_catalog (o : option ClientOverrides) (env : Env)
    (given : string) :
  selectProvider o env = Ok given ->
  Js.truthy (opt provider o) = true \/ Js.truthy (env !! "AI_PROVIDER") = false ->
  In given ProviderCatalog.
Proof.
  unfold selectProvider, selectFromEnvironment. intros H C.
  destruct (Js.truthy (opt provider o)).
  - destruct (existsb _ ALLOWED_CLIENT_PROVIDERS) eqn:E; [|discriminate H].
    inv_result. apply includes_names in E.
    apply in_map_iff in E as (p & <- & _). apply providerString_in_catalog.
  - destruct C as [C | C]; [discriminate C|]. rewrite C in H.
    destruct (detectProvider env) as [p|].
    + inv_result. apply providerString_in_catalog.
    + destruct (configured env); discriminate H.
Qed.

Lemma mistral_outside_catalog : ~ In "mistral" ProviderCatalog.
Proof.
  cbn. intros H. repeat (destruct H as [H | H]; [discriminate H|]). exact H.
Qed.

(** C5, as stated, fails: the explicit environment setting is selected as
    it is, also when it names no provider of the catalog. *)
Lemma explicit_setting_outside_catalog_counterexample :
  let env := environment [("AI_PROVIDER", "mistral"); ("AI_MODEL", "mistral-large")] in
  selectProvider None env = Ok "mistral" /\ ~ In "mistral" ProviderCatalog.
Proof. split; [reflexivity | exact mistral_outside_catalog]. Qed.

(** C5, amended: the client-override and auto-detection steps yield members
    of the catalog; the explicit environment setting is taken as it is, and
    when it names no member of the catalog the resolution fails, in the
    client factory at the latest; so the provider that governs a successful
    resolution is always a member of the catalog. *)
Theorem governing_provider_in_catalog
    (parseFloat : string -> float) (inheritedMember : string -> option string)
    (o : option ClientOverrides) (env : Env) :
  (forall given,
     selectProvider o env = Ok given ->
     Js.truthy (opt provider o) = true \/ Js.truthy (env !! "AI_PROVIDER") = false ->
     In given ProviderCatalog)
  /\
  (forall cfg,
     getAIModel parseFloat inheritedMember o env = Ok cfg ->
     exists given, selectProvider o env = Ok given /\ In given ProviderCatalog)
  /\
  (forall given m,
     securityGate o = Ok tt ->
     resolveModelId o env = Ok m ->
     selectProvider o env = Ok given ->
     ~ In given ProviderCatalog ->
     getAIModel parseFloat inheritedMember o env = Err (UnknownProvider given)
     \/ exists requiredVar,
          getAIModel parseFloat inheritedMember o env
          = Err (CredentialRequired requiredVar given)).
Proof.
  split; [|split].
  - intros given. apply selectProvider_in_catalog.
  - intros cfg H. unfold getAIModel in H.
    apply bind_Ok in H as ([] & _ & H).
    apply bind_Ok in H as (m & _ & H).
    apply bind_Ok in H as (given & Hs & H).
    apply bind_Ok in H as ([] & _ & H).
    apply bind_Ok in H as (c & _ & H).
    apply bind_Ok in H as (built & Hc & _).
    exists given. split; [exact Hs|].
    destruct (ofString given) as [p|] eqn:E.
    + apply ofString_Some in E as ->. apply providerString_in_catalog.
    + unfold createModel in Hc. rewrite E in Hc. discriminate Hc.
  - intros given m Hg Hm Hs Hout.
    assert (Hc : isClientOverride o = false).
    { unfold isClientOverride.
      destruct (Js.truthy (opt provider o)) eqn:Hp; [|reflexivity].
      destruct Hout. apply (selectProvider_in_catalog o env); auto. }
    assert (Hn : ofString given = None) by now apply ofString_None.
    assert (Hz : (given =? "azure")%string = false).
    { apply String.eqb_neq. intros ->. apply Hout.
      apply (providerString_in_catalog azure). }
    unfold getAIModel. rewrite Hg, Hm, Hs, Hc. cbn [bind].
    unfold validateProviderCredentials.
    rewrite requiredVarOf_outside_catalog by exact Hout. rewrite Hz.
    destruct (inheritedMember given) as [v|];
      [destruct (Js.truthy (env !! v))|]; cbn [bind andb].
    + left. unfold buildProviderOptions, createModel. now rewrite Hn.
    + right. now exists v.
    + left. unfold buildProviderOptions, createModel. now rewrite Hn.
Qed.

Lemma governing_provider_in_catalog_witness :
  (let env := environment [("AI_MODEL", "gpt-4o"); ("OPENAI_API_KEY", "sk-server")] in
   In "openai" ProviderCatalog)
  /\ (let env := environment [("AI_PROVIDER", "openai"); ("AI_MODEL", "gpt-4o");
                             ("OPENAI_API_KEY", "sk-server")] in
      exists given, selectProvider None env = Ok given /\ In given ProviderCatalog)
  /\ (let env := environment [("AI_PROVIDER", "mistral");
                             ("AI_MODEL", "mistral-large")] in
      getAIModel parseFloatOfNoNumber nodeInheritedMember None env
      = Err (UnknownProvider "mistral")
      \/ exists requiredVar,
           getAIModel parseFloatOfNoNumber nodeInheritedMember None env
           = Err (CredentialRequired requiredVar "mistral")).
Proof.
  split; [|split]; intros env.
  - refine (proj1 (governing_provider_in_catalog
                     parseFloatOfNoNumber nodeInheritedMember None env)
              "openai" _ _); [reflexivity | right; reflexivity].
  - refine (proj1 (proj2 (governing_provider_in_catalog
                            parseFloatOfNoNumber nodeInheritedMember None env))
              {| cfg_model := OpenAIDefault "gpt-4o"; cfg_providerOptions := None;
                 cfg_headers := None; cfg_modelId := "gpt-4o" |} _).
    reflexivity.
  - refine (proj2 (proj2 (governing_provider_in_catalog
                            parseFloatOfNoNumber nodeInheritedMember None env))
              "mistral" "mistral-large" _ _ _ _); try reflexivity.
    exact mistral_outside_catalog.
Defined.

(** The setting AI_PROVIDER=constructor reaches [Object.prototype] through
    the table of credential variables: the credential check fails on the
    coerced function. *)
Lemma inherited_member_setting :
  getAIModel parseFloatOfNoNumber nodeInheritedMember None
    (environment [("AI_PROVIDER", "constructor"); ("AI_MODEL", "gpt-4o")])
  = Err (CredentialRequired "function Object() { [native code] }" "constructor").
Proof. reflexivity. Qed.

(** ** Options of the OpenAI family *)

(** C6: for a model identifier containing "o1", "o3" or "gpt-5", with no
    summary setting, the options are a non-empty object whose
    [reasoningSummary] is "detailed"; for any other identifier, with neither
    the effort nor the summary setting, there is no options object. *)
Theorem openai_reasoning_summary_default
    (parseFloat : string -> float) (env : Env) (m : string) :
  (Js.includes m "o1" || Js.includes m "o3" || Js.includes m "gpt-5" = true ->
   Js.truthy (env !! "OPENAI_REASONING_SUMMARY") = false ->
   exists fields,
     buildProviderOptions parseFloat env "openai" (Some m)
     = Ok (Some [("openai", JObj fields)])
     /\ Obj.nonEmpty [("openai", JObj fields)] = true
     /\ Obj.get "reasoningSummary" fields = Some (JStr "detailed"))
  /\
  (Js.includes m "o1" || Js.includes m "o3" || Js.includes m "gpt-5" = false ->
   Js.truthy (env !! "OPENAI_REASONING_EFFORT") = false ->
   Js.truthy (env !! "OPENAI_REASONING_SUMMARY") = false ->
   buildProviderOptions parseFloat env "openai" (Some m) = Ok None).
Proof.
  unfold buildProviderOptions.
  change (ofString "openai") with (Some openai). cbn [bind].
  unfold openaiOptions. change (str (Some m)) with m.
  split.
  - intros Hc Hs. rewrite Hc.
    assert (Hm : Js.truthy (Some m) = true).
    { destruct m; [discriminate Hc | reflexivity]. }
    rewrite Hm. cbn [andb]. unfold Js.or_else. rewrite Hs.
    destruct (Js.truthy (env !! "OPENAI_REASONING_EFFORT"));
      eexists; repeat split.
  - intros Hc He Hs. rewrite Hc, He, Hs, andb_false_r. reflexivity.
Qed.

Lemma openai_reasoning_summary_default_witness :
  (exists fields,
     buildProviderOptions parseFloatOfNoNumber
       (environment [("OPENAI_REASONING_EFFORT", "high")]) "openai" (Some "gpt-5-mini")
     = Ok (Some [("openai", JObj fields)])
     /\ Obj.nonEmpty [("openai", JObj fields)] = true
     /\ Obj.get "reasoningSummary" fields = Some (JStr "detailed"))
  /\ buildProviderOptions parseFloatOfNoNumber (environment []) "openai" (Some "gpt-4o")
     = Ok None.
Proof.
  split.
  - refine (proj1 (openai_reasoning_summary_default parseFloatOfNoNumber
                     (environment [("OPENAI_REASONING_EFFORT", "high")])
                     "gpt-5-mini") _ _); reflexivity.
  - refine (proj2 (openai_reasoning_summary_default parseFloatOfNoNumber
                     (environment []) "gpt-4o") _ _ _); reflexivity.
Defined.

(** C7, as stated, fails: an effort outside minimal/low/medium/high is not
    rejected; the resolution succeeds and hands the value to the SDK. *)
Lemma effort_not_validated_counterexample :
  getAIModel parseFloatOfNoNumber nodeInheritedMember None
    (environment [("AI_PROVIDER", "openai"); ("AI_MODEL", "gpt-4o");
                  ("OPENAI_API_KEY", "sk-server");
                  ("OPENAI_REASONING_EFFORT", "extreme")])
  = Ok {| cfg_model := OpenAIDefault "gpt-4o";
          cfg_providerOptions :=
            Some [("openai", JObj [("reasoningEffort", JStr "extreme")])];
          cfg_headers := None;
          cfg_modelId := "gpt-4o" |}
  /\ ~ In "extreme" ["minimal"; "low"; "medium"; "high"].
Proof.
  split; [reflexivity|].
  cbn. intros H. repeat (destruct H as [H | H]; [discriminate H|]). exact H.
Qed.

(** C7, amended: the effort setting is not validated; whenever it is present
    (and not empty) the options of the OpenAI family carry it as it is,
    whatever its value and whatever the model identifier. *)
Theorem openai_effort_passed_through
    (parseFloat : string -> float) (env : Env) (m : option string) (v : string) :
  env !! "OPENAI_REASONING_EFFORT" = Some v ->
  v <> "" ->
  exists fields,
    buildProviderOptions parseFloat env "openai" m
    = Ok (Some [("openai", JObj fields)])
    /\ Obj.get "reasoningEffort" fields = Some (JStr v).
Proof.
  intros Hv Hne.
  unfold buildProviderOptions.
  change (ofString "openai") with (Some openai). cbn [bind].
  unfold openaiOptions. rewrite Hv. change (str (Some v)) with v.
  assert (Ht : Js.truthy (Some v) = true) by (destruct v; [congruence | reflexivity]).
  rewrite Ht. cbn [orb].
  destruct (Js.truthy m && _).
  - eexists; split; reflexivity.
  - destruct (Js.truthy (env !! "OPENAI_REASONING_SUMMARY"));
      eexists; split; reflexivity.
Qed.

Lemma openai_effort_passed_through_witness :
  exists fields,
    buildProviderOptions parseFloatOfNoNumber
      (environment [("OPENAI_REASONING_EFFORT", "extreme")]) "openai" (Some "gpt-4o")
    = Ok (Some [("openai", JObj fields)])
    /\ Obj.get "reasoningEffort" fields = Some (JStr "extreme").
Proof.
  refine (openai_effort_passed_through parseFloatOfNoNumber
            (environment [("OPENAI_REASONING_EFFORT", "extreme")])
            (Some "gpt-4o") "extreme" _ _); [reflexivity | discriminate].
Defined.

(** ** Options of the Anthropic family *)

Lemma digits_numeral (s : string) (acc n : Z) :
  Js.numeralFrom s acc = Some n -> Js.digits s acc true = Some n.
Proof.
  revert acc. induction s as [|c s IH]; intros acc; cbn [Js.numeralFrom Js.digits].
  - trivial.
  - destruct (Js.digit c); [apply IH | discriminate].
Qed.

Lemma digit_starts_numeral (c : ascii) (s : string) (d : Z) :
  Js.digit c = Some d ->
  Js.parseInt (String c s) = Js.digits s (10 * 0 + d) true.
Proof.
  intros H. unfold Js.parseInt.
  assert (T : Js.trimStart (String c s) = String c s).
  { destruct c as [[] [] [] [] [] [] [] []]; try discriminate H;
      destruct s as [|x [|y s]]; reflexivity. }
  rewrite T.
  destruct c as [[] [] [] [] [] [] [] []]; try discriminate H;
    cbn [Js.digits]; cbv in H; injection H as <-; reflexivity.
Qed.

Lemma parseInt_numeral (s : string) (n : Z) :
  Js.numeralValue s = Some n -> Js.parseInt s = Some n.
Proof.
  destruct s as [|c s]; [discriminate|].
  cbn [Js.numeralValue Js.numeralFrom].
  destruct (Js.digit c) as [d|] eqn:E; [|discriminate].
  intros H. rewrite (digit_starts_numeral c s d E). now apply digits_numeral.
Qed.

Lemma parseIntSafe_numeral (value : option string) (varName : string)
    (lo hi n : Z) :
  Js.numeralValue (str value) = Some n ->
  parseIntSafe value varName (Some lo) (Some hi)
  = if n <? lo then Err (BelowMinimum varName lo n)
    else if hi <? n then Err (AboveMaximum varName hi n)
    else Ok (Some n).
Proof.
  intros H. unfold parseIntSafe.
  assert (T : Js.truthy value = true).
  { destruct value as [[|c s]|]; [discriminate H | reflexivity | discriminate H]. }
  rewrite T. cbn [negb]. now rewrite (parseInt_numeral _ _ H).
Qed.

(** C8, as stated, fails: the thinking budget is attached for a model
    identifier that matches no capable-model pattern (the pattern of the
    token-budget settings of this file is "claude" or "anthropic"), and even
    when the builder is given no identifier at all. *)
Lemma anthropic_budget_ignores_model_counterexample :
  let env := environment [("ANTHROPIC_THINKING_BUDGET_TOKENS", "2048")] in
  let attached : Obj.t :=
    [("anthropic",
      JObj [("thinking",
             JObj [("type", JStr "enabled"); ("budgetTokens", JInt 2048)])])] in
  Js.includes "gpt-4o" "claude" || Js.includes "gpt-4o" "anthropic" = false
  /\ buildProviderOptions parseFloatOfNoNumber env "anthropic" (Some "gpt-4o")
     = Ok (Some attached)
  /\ buildProviderOptions parseFloatOfNoNumber env "anthropic" None
     = Ok (Some attached).
Proof. repeat split. Qed.

(** C8, amended: for the Anthropic family the model identifier is not
    consulted.  No budget setting: no options.  A budget written as a plain
    decimal numeral within 1024..64000 is attached as it is, with the
    thinking type of ANTHROPIC_THINKING_TYPE or "enabled"; a numeral below
    1024 or above 64000, and a setting that holds no leading integer, is a
    configuration error.  Whenever a budget is attached it lies within
    1024..64000. *)
Theorem anthropic_thinking_budget
    (parseFloat : string -> float) (env : Env) (m : option string) :
  let budget := env !! "ANTHROPIC_THINKING_BUDGET_TOKENS" in
  let thinkingType :=
    str (Js.or_else (env !! "ANTHROPIC_THINKING_TYPE") (Some "enabled")) in
  let attached (n : Z) : Obj.t :=
    [("anthropic",
      JObj [("thinking",
             JObj [("type", JStr thinkingType); ("budgetTokens", JInt n)])])] in
  let build := buildProviderOptions parseFloat env "anthropic" in
  (forall m', build m = build m')
  /\ (Js.truthy budget = false -> build m = Ok None)
  /\ (forall n, Js.numeralValue (str budget) = Some n ->
        (1024 <= n <= 64000 -> build m = Ok (Some (attached n)))
        /\ (n < 1024 ->
            build m = Err (BelowMinimum "ANTHROPIC_THINKING_BUDGET_TOKENS" 1024 n))
        /\ (64000 < n ->
            build m = Err (AboveMaximum "ANTHROPIC_THINKING_BUDGET_TOKENS" 64000 n)))
  /\ (Js.truthy budget = true -> Js.parseInt (str budget) = None ->
        build m = Err (NotAnInteger "ANTHROPIC_THINKING_BUDGET_TOKENS" (str budget)))
  /\ (forall e, build m = Err e -> kindOf e = ConfigurationError)
  /\ (forall options, build m = Ok (Some options) ->
        exists n, 1024 <= n <= 64000 /\ options = attached n).
Proof.
  intros budget thinkingType attached build.
  assert (B : forall m0, build m0 =
                (options <- anthropicOptions env ;;
                 Ok (if Obj.nonEmpty options then Some options else None)))
    by reflexivity.
  split; [intros m'; now rewrite !B|].
  rewrite B. clear B build. unfold anthropicOptions.
  fold budget. fold thinkingType.
  split; [|split; [|split; [|split]]].
  - intros H. unfold parseIntSafe. now rewrite H.
  - intros n H.
    rewrite (parseIntSafe_numeral _ _ 1024 64000 n H).
    repeat split; intros R.
    + destruct (Z.ltb_spec n 1024); [lia|].
      destruct (Z.ltb_spec 64000 n); [lia|]. cbn [bind numTruthy num default].
      destruct (Z.eqb_spec n 0); [lia|]. reflexivity.
    + destruct (Z.ltb_spec n 1024); [reflexivity | lia].
    + destruct (Z.ltb_spec n 1024); [lia|].
      destruct (Z.ltb_spec 64000 n); [reflexivity | lia].
  - intros Ht Hp. unfold parseIntSafe. now rewrite Ht, Hp.
  - intros e H. apply bind_Err in H as [H | (o & _ & H)].
    + apply bind_Err in H as [H | (b & _ & H)].
      * now apply parseIntSafe_Err in H.
      * destruct (numTruthy b); discriminate H.
    + discriminate H.
  - intros options H.
    apply bind_Ok in H as (o & H & Ho).
    apply bind_Ok in H as (b & Hb & H).
    unfold parseIntSafe in Hb.
    destruct (Js.truthy budget); cbn [negb] in Hb.
    + destruct (Js.parseInt (str budget)) as [n|]; [|discriminate Hb].
      destruct (Z.ltb_spec n 1024); [discriminate Hb|].
      destruct (Z.ltb_spec 64000 n); [discriminate Hb|].
      inv_result. cbn [numTruthy num default] in H.
      destruct (Z.eqb_spec n 0); [lia|]. cbn [negb] in H. inv_result.
      cbn in Ho. inv_result. exists n. split; [lia | reflexivity].
    + inv_result. cbn in H. inv_result. discriminate Ho.
Qed.

Lemma anthropic_thinking_budget_witness :
  let build (setting : list (string * string)) :=
    buildProviderOptions parseFloatOfNoNumber (environment setting)
      "anthropic" (Some "claude-sonnet-4-5") in
  build [] = Ok None
  /\ build [("ANTHROPIC_THINKING_BUDGET_TOKENS", "2048")]
     = Ok (Some [("anthropic",
                  JObj [("thinking",
                         JObj [("type", JStr "enabled");
                               ("budgetTokens", JInt 2048)])])])
  /\ build [("ANTHROPIC_THINKING_BUDGET_TOKENS", "512")]
     = Err (BelowMinimum "ANTHROPIC_THINKING_BUDGET_TOKENS" 1024 512)
  /\ build [("ANTHROPIC_THINKING_BUDGET_TOKENS", "100000")]
     = Err (AboveMaximum "ANTHROPIC_THINKING_BUDGET_TOKENS" 64000 100000)
  /\ build [("ANTHROPIC_THINKING_BUDGET_TOKENS", "plenty")]
     = Err (NotAnInteger "ANTHROPIC_THINKING_BUDGET_TOKENS" "plenty").
Proof.
  intros build.
  pose (claim setting :=
          anthropic_thinking_budget parseFloatOfNoNumber (environment setting)
            (Some "claude-sonnet-4-5")).
  split; [|split; [|split; [|split]]].
  - exact (proj1 (proj2 (claim [])) eq_refl).
  - refine (proj1 (proj1 (proj2 (proj2
              (claim [("ANTHROPIC_THINKING_BUDGET_TOKENS", "2048")])))
              2048 eq_refl) _). lia.
  - refine (proj1 (proj2 (proj1 (proj2 (proj2
              (claim [("ANTHROPIC_THINKING_BUDGET_TOKENS", "512")])))
              512 eq_refl)) _). lia.
  - refine (proj2 (proj2 (proj1 (proj2 (proj2
              (claim [("ANTHROPIC_THINKING_BUDGET_TOKENS", "100000")])))
              100000 eq_refl)) _). lia.
  - exact (proj1 (proj2 (proj2 (proj2
              (claim [("ANTHROPIC_THINKING_BUDGET_TOKENS", "plenty")]))))
              eq_refl eq_refl).
Defined.

(** ** Claude models on Bedrock *)

Lemma includes_marker (m : string) :
  Js.includes m "anthropic.claude" = true ->
  Js.includes m "claude" = true.
Proof.
  rewrite !includes_app. intros (a & b & ->).
  exists (a ++ "anthropic.")%string, b.
  now rewrite append_assoc.
Qed.

Lemma bedrock_not_override (o : option ClientOverrides) (env : Env) :
  selectProvider o env = Ok "bedrock" -> isClientOverride o = false.
Proof.
  unfold selectProvider, isClientOverride.
  destruct (Js.truthy (opt provider o)); [|reflexivity].
  destruct (existsb _ ALLOWED_CLIENT_PROVIDERS) eqn:E; [|discriminate].
  intros [= H]. rewrite H in E. discriminate E.
Qed.

(** What the option builder yields for Bedrock: nothing, or one reasoning
    configuration. *)
Lemma bedrockOptions_shape (env : Env) (m : option string) (options : Obj.t) :
  bedrockOptions env m = Ok options ->
  options = [] \/
  exists reasoningConfig,
    options = [("bedrock", JObj [("reasoningConfig", JObj reasoningConfig)])].
Proof.
  unfold bedrockOptions. intros H.
  apply bind_Ok in H as (b & _ & H).
  destruct (_ && _ && _); inv_result; eauto.
Qed.

Section BedrockClaude.

Context (parseFloat : string -> float) (inheritedMember : string -> option string).
Context (o : option ClientOverrides) (env : Env) (m : string).

Hypothesis gate : securityGate o = Ok tt.
Hypothesis model : resolveModelId o env = Ok m.
Hypothesis selected : selectProvider o env = Ok "bedrock".
Hypothesis marker : Js.includes m "anthropic.claude" = true.

Lemma getAIModel_bedrock_claude :
  getAIModel parseFloat inheritedMember o env
  = (options <- bedrockOptions env (Some m) ;;
     Ok {| cfg_model :=
             BedrockModel
               (str (Js.or_else (env !! "AWS_REGION") (Some "us-west-2"))) m;
           cfg_providerOptions :=
             Some [("bedrock",
                    JObj (Obj.spread
                            [("anthropicBeta",
                              JArr [JStr "fine-grained-tool-streaming-2025-05-14"])]
                            match Obj.get "bedrock" options with
                            | Some (JObj b) => b
                            | _ => []
                            end))];
           cfg_headers := None;
           cfg_modelId := m |}).
Proof.
  unfold getAIModel.
  rewrite gate, model, selected, (bedrock_not_override o env selected).
  cbn [bind].
  change (validateProviderCredentials inheritedMember env "bedrock") with (Ok tt).
  cbn [bind]. unfold buildProviderOptions, createModel.
  change (ofString "bedrock") with (Some bedrock). cbv beta iota.
  rewrite marker.
  destruct (bedrockOptions env (Some m)) as [options|e]; [|reflexivity].
  cbn [bind].
  destruct options as [|kv options]; reflexivity.
Qed.

End BedrockClaude.

(** C9: for Bedrock with a model identifier containing "anthropic.claude",
    the provider options of every resulting descriptor carry the fixed
    [anthropicBeta] flags; when the environment supplies a reasoning budget
    the resolution succeeds and the options hold the flags and the
    [reasoningConfig] with that budget side by side; without a budget
    setting the resolution succeeds as well. *)
Theorem bedrock_claude_beta_flags
    (parseFloat : string -> float) (inheritedMember : string -> option string)
    (o : option ClientOverrides) (env : Env) (m : string) :
  securityGate o = Ok tt ->
  resolveModelId o env = Ok m ->
  selectProvider o env = Ok "bedrock" ->
  Js.includes m "anthropic.claude" = true ->
  let flags := JArr [JStr "fine-grained-tool-streaming-2025-05-14"] in
  (forall cfg,
     getAIModel parseFloat inheritedMember o env = Ok cfg ->
     exists b, cfg_providerOptions cfg = Some [("bedrock", JObj b)]
               /\ Obj.get "anthropicBeta" b = Some flags)
  /\
  (forall n,
     parseIntSafe (env !! "BEDROCK_REASONING_BUDGET_TOKENS")
       "BEDROCK_REASONING_BUDGET_TOKENS" (Some 1024) (Some 64000) = Ok (Some n) ->
     exists cfg,
       getAIModel parseFloat inheritedMember o env = Ok cfg
       /\ cfg_providerOptions cfg
          = Some [("bedrock",
                   JObj [("anthropicBeta", flags);
                         ("reasoningConfig",
                          JObj [("type", JStr "enabled");
                                ("budgetTokens", JInt n)])])])
  /\
  (Js.truthy (env !! "BEDROCK_REASONING_BUDGET_TOKENS") = false ->
   exists cfg, getAIModel parseFloat inheritedMember o env = Ok cfg).
Proof.
  intros Hg Hm Hs Hk flags.
  rewrite (getAIModel_bedrock_claude parseFloat inheritedMember o env m Hg Hm Hs Hk).
  split; [|split].
  - intros cfg H. apply bind_Ok in H as (options & Ho & H). inv_result.
    cbn [cfg_providerOptions].
    apply bedrockOptions_shape in Ho as [-> | [rc ->]];
      eexists; split; reflexivity.
  - intros n Hn. unfold bedrockOptions. rewrite Hn. cbn [bind].
    assert (Ht : numTruthy (Some n) = true).
    { unfold parseIntSafe in Hn.
      destruct (negb _); [discriminate Hn|].
      destruct (Js.parseInt _) as [k|]; [|discriminate Hn].
      destruct (Z.ltb_spec k 1024); [discriminate Hn|].
      destruct (64000 <? k); [discriminate Hn|]. inv_result.
      cbn. destruct (Z.eqb_spec k 0); [lia | reflexivity]. }
    assert (Hm' : Js.truthy (Some m) = true).
    { destruct m; [discriminate Hk | reflexivity]. }
    change (str (Some m)) with m.
    rewrite Ht, Hm', (includes_marker m Hk). cbn [andb orb bind].
    eexists; split; reflexivity.
  - intros Hb. unfold bedrockOptions, parseIntSafe. rewrite Hb. cbn [negb bind].
    destruct (_ && _ && _); cbn [bind]; eexists; reflexivity.
Qed.

Lemma bedrock_claude_beta_flags_witness :
  let env := environment [("AI_PROVIDER", "bedrock");
                          ("AI_MODEL", "us.anthropic.claude-sonnet-4-5");
                          ("BEDROCK_REASONING_BUDGET_TOKENS", "2048")] in
  exists cfg,
    getAIModel parseFloatOfNoNumber nodeInheritedMember None env = Ok cfg
    /\ cfg_providerOptions cfg
       = Some [("bedrock",
                JObj [("anthropicBeta",
                       JArr [JStr "fine-grained-tool-streaming-2025-05-14"]);
                      ("reasoningConfig",
                       JObj [("type", JStr "enabled");
                             ("budgetTokens", JInt 2048)])])].
Proof.
  intros env.
  refine (proj1 (proj2 (bedrock_claude_beta_flags
                          parseFloatOfNoNumber nodeInheritedMember None env
                          "us.anthropic.claude-sonnet-4-5" _ _ _ _))
            2048 _); reflexivity.
Defined.

(** * Further properties of the resolution engine *)

(** ** Integer settings *)

(** X1: [parseIntSafe] yields no number exactly when the setting is absent
    or empty, and a number it yields is the one [Number.parseInt] reads and
    lies within the bounds that were given. *)
Theorem parseIntSafe_within_bounds
    (value : option string) (varName : string) (min max : option Z) :
  (Js.truthy value = false -> parseIntSafe value varName min max = Ok None)
  /\ (Js.truthy value = true -> parseIntSafe value varName min max <> Ok None)
  /\ (forall n, parseIntSafe value varName min max = Ok (Some n) ->
        Js.parseInt (str value) = Some n
        /\ (forall lo, min = Some lo -> lo <= n)
        /\ (forall hi, max = Some hi -> n <= hi)).
Proof.
  unfold parseIntSafe. split; [|split].
  - intros ->. reflexivity.
  - intros ->. cbn [negb].
    destruct (Js.parseInt (str value)); [|discriminate].
    repeat match goal with
           | |- context [if ?c then _ else _] => destruct c
           end; discriminate.
  - intros n. destruct (negb (Js.truthy value)); [discriminate|].
    destruct (Js.parseInt (str value)) as [k|]; [|discriminate].
    destruct min as [lo|], max as [hi|];
      repeat match goal with
             | |- context [?a <? ?b] => destruct (Z.ltb_spec a b)
             end; intros Hok; inv_result;
      (split; [reflexivity|]); split; intros b [= <-]; lia.
Qed.

Lemma parseIntSafe_within_bounds_witness :
  parseIntSafe None "GOOGLE_TOP_K" (Some 1) (Some 100) = Ok None
  /\ parseIntSafe (Some "7") "GOOGLE_TOP_K" (Some 1) (Some 100) <> Ok None
  /\ 1 <= 7 <= 100.
Proof.
  pose (claim v := parseIntSafe_within_bounds v "GOOGLE_TOP_K" (Some 1) (Some 100)).
  split; [|split].
  - exact (proj1 (claim None) eq_refl).
  - exact (proj1 (proj2 (claim (Some "7"))) eq_refl).
  - destruct (proj2 (proj2 (claim (Some "7"))) 7 eq_refl) as (_ & Hlo & Hhi).
    split; [exact (Hlo 1 eq_refl) | exact (Hhi 100 eq_refl)].
Defined.

Lemma digits_ignore_rest (s t : string) (acc n : Z) :
  Js.numeralFrom s acc = Some n ->
  match t with
  | EmptyString => True
  | String c _ => Js.digit c = None
  end ->
  Js.digits (s ++ t) acc true = Some n.
Proof.
  revert acc. induction s as [|c s IH]; intros acc H Ht.
  - cbn in H. injection H as <-.
    change ("" ++ t)%string with t.
    destruct t as [|c t]; [reflexivity|]. cbn [Js.digits]. now rewrite Ht.
  - rewrite append_cons. cbn [Js.numeralFrom Js.digits] in *.
    destruct (Js.digit c); [now apply IH | discriminate].
Qed.

(** X2: text that follows a decimal numeral is ignored: a setting made of a
    numeral and any rest that does not start with a digit is handled as the
    numeral alone, so "2048abc" is accepted as 2048. *)
Theorem parseIntSafe_ignores_trailing_text
    (s t varName : string) (min max : option Z) (n : Z) :
  Js.numeralValue s = Some n ->
  match t with
  | EmptyString => True
  | String c _ => Js.digit c = None
  end ->
  parseIntSafe (Some (s ++ t)%string) varName min max
  = parseIntSafe (Some s) varName min max.
Proof.
  intros Hs Ht.
  assert (P : Js.parseInt (s ++ t) = Some n).
  { destruct s as [|c s]; [discriminate Hs|].
    cbn [Js.numeralValue Js.numeralFrom] in Hs.
    destruct (Js.digit c) as [d|] eqn:E; [|discriminate Hs].
    rewrite append_cons, (digit_starts_numeral c (s ++ t) d E).
    now apply digits_ignore_rest. }
  unfold parseIntSafe. change (str (Some (s ++ t)%string)) with (s ++ t)%string.
  change (str (Some s)) with s.
  rewrite P, (parseInt_numeral s n Hs).
  destruct s as [|c s]; [discriminate Hs|]. reflexivity.
Qed.

Lemma parseIntSafe_ignores_trailing_text_witness :
  parseIntSafe (Some "2048abc") "ANTHROPIC_THINKING_BUDGET_TOKENS"
    (Some 1024) (Some 64000)
  = parseIntSafe (Some "2048") "ANTHROPIC_THINKING_BUDGET_TOKENS"
      (Some 1024) (Some 64000).
Proof.
  exact (parseIntSafe_ignores_trailing_text "2048" "abc"
           "ANTHROPIC_THINKING_BUDGET_TOKENS" (Some 1024) (Some 64000) 2048
           eq_refl eq_refl).
Defined.

(** ** Server credentials *)

Lemma requiredVarOf_table
    (inheritedMember : string -> option string) (p : ProviderName)
    (envVar : option string) :
  In (p, envVar) PROVIDER_ENV_VARS ->
  requiredVarOf inheritedMember (providerString p) = envVar.
Proof.
  intros H. cbn in H.
  repeat (destruct H as [[= <- <-] | H]; [reflexivity|]). contradiction.
Qed.

(** X3: without a client override, a provider whose credential variable is
    not set makes the resolution fail with the error that names the variable
    and the provider, whichever step selected the provider. *)
Theorem missing_credential_is_named
    (parseFloat : string -> float) (inheritedMember : string -> option string)
    (o : option ClientOverrides) (env : Env) (m : string)
    (p : ProviderName) (requiredVar : string) :
  securityGate o = Ok tt ->
  resolveModelId o env = Ok m ->
  selectProvider o env = Ok (providerString p) ->
  isClientOverride o = false ->
  In (p, Some requiredVar) PROVIDER_ENV_VARS ->
  Js.truthy (env !! requiredVar) = false ->
  getAIModel parseFloat inheritedMember o env
  = Err (CredentialRequired requiredVar (providerString p)).
Proof.
  intros Hg Hm Hs Hc Hin Hv. unfold getAIModel.
  rewrite Hg, Hm, Hs, Hc. cbn [bind]. unfold validateProviderCredentials.
  rewrite (requiredVarOf_table inheritedMember p _ Hin), Hv. reflexivity.
Qed.

Lemma missing_credential_is_named_witness :
  getAIModel parseFloatOfNoNumber nodeInheritedMember
    (overrides (Some "kimi") None None None)
    (environment [("AI_MODEL", "moonshot-v1-8k"); ("OPENAI_API_KEY", "sk-server")])
  = Err (CredentialRequired "KIMI_API_KEY" "kimi").
Proof.
  refine (missing_credential_is_named parseFloatOfNoNumber nodeInheritedMember
            (overrides (Some "kimi") None None None)
            (environment [("AI_MODEL", "moonshot-v1-8k");
                          ("OPENAI_API_KEY", "sk-server")])
            "moonshot-v1-8k" kimi "KIMI_API_KEY" _ _ _ _ _ _);
    try reflexivity.
  cbn. tauto.
Defined.

(** X4: when the client brings its own provider and key, the credentials of
    the server are not checked: no failure of the resolution is a credential
    error, whatever the environment holds. *)
Theorem client_override_skips_credential_check
    (parseFloat : string -> float) (inheritedMember : string -> option string)
    (o : option ClientOverrides) (env : Env) (e : Error) :
  isClientOverride o = true ->
  getAIModel parseFloat inheritedMember o env = Err e ->
  kindOf e <> CredentialError.
Proof.
  intros Hc H. unfold getAIModel in H. rewrite Hc in H.
  apply bind_Err in H as [H | ([] & _ & H)].
  { unfold securityGate in H. destruct (_ && _); inv_result. discriminate. }
  apply bind_Err in H as [H | (m & _ & H)].
  { apply resolveModelId_Err in H. congruence. }
  apply bind_Err in H as [H | (given & _ & H)].
  { apply selectProvider_Err in H. intuition congruence. }
  cbn [bind] in H.
  apply bind_Err in H as [H | (c & _ & H)].
  { apply buildProviderOptions_Err in H. congruence. }
  apply bind_Err in H as [H | ([[model po] hd] & _ & H)]; [|discriminate H].
  apply createModel_Err in H. subst e. discriminate.
Qed.

Lemma client_override_skips_credential_check_witness :
  kindOf (InvalidProvider "bedrock") <> CredentialError.
Proof.
  refine (client_override_skips_credential_check
            parseFloatOfNoNumber nodeInheritedMember
            (overrides (Some "bedrock") None (Some "sk-client") (Some "m"))
            (environment []) (InvalidProvider "bedrock") _ _); reflexivity.
Defined.

(** ** What the client factory is given *)

Lemma getAIModel_Ok
    (parseFloat : string -> float) (inheritedMember : string -> option string)
    (o : option ClientOverrides) (env : Env) (cfg : ModelConfig) :
  getAIModel parseFloat inheritedMember o env = Ok cfg ->
  exists given custom options headers,
    securityGate o = Ok tt
    /\ resolveModelId o env = Ok (cfg_modelId cfg)
    /\ selectProvider o env = Ok given
    /\ (isClientOverride o = false ->
        validateProviderCredentials inheritedMember env given = Ok tt)
    /\ buildProviderOptions parseFloat env given (Some (cfg_modelId cfg)) = Ok custom
    /\ createModel o env given (cfg_modelId cfg) custom
       = Ok (cfg_model cfg, options, headers)
    /\ cfg_headers cfg = headers
    /\ cfg_providerOptions cfg
       = match custom, options with
         | Some _, None =>
             if negb (given =? "bedrock")%string then custom else options
         | _, _ => options
         end.
Proof.
  unfold getAIModel. intros H.
  apply bind_Ok in H as ([] & Hg & H).
  apply bind_Ok in H as (m & Hm & H).
  apply bind_Ok in H as (given & Hs & H).
  apply bind_Ok in H as ([] & Hv & H).
  apply bind_Ok in H as (custom & Hb & H).
  apply bind_Ok in H as ([[model options] headers] & Hc & H).
  inv_result. cbn [cfg_modelId cfg_model cfg_headers cfg_providerOptions].
  exists given, custom, options, headers.
  repeat split; try assumption.
  intros Hf. now rewrite Hf in Hv.
Qed.

Lemma override_selects_allowed (o : option ClientOverrides) (env : Env)
    (given : string) :
  selectProvider o env = Ok given ->
  Js.truthy (opt provider o) = true ->
  In given (map providerString ALLOWED_CLIENT_PROVIDERS).
Proof.
  unfold selectProvider. intros H Hp. rewrite Hp in H.
  destruct (existsb _ ALLOWED_CLIENT_PROVIDERS) eqn:E; [|discriminate H].
  inv_result. now apply includes_names.
Qed.

Lemma or_else_truthy (a b : option string) :
  Js.truthy a = true -> Js.or_else a b = a.
Proof. unfold Js.or_else. now intros ->. Qed.

Lemma whenTruthy_truthy (a : option string) :
  Js.truthy a = true -> whenTruthy a = a.
Proof. unfold whenTruthy. now intros ->. Qed.

(** X5: a key of the server is never paired with an endpoint of the client.
    A resolution that succeeds with a [baseUrl] override had an [apiKey]
    override too; and whenever the client supplies a key, the client that is
    built carries that key, and the client's endpoint if one was given.  No
    default client, which would read the key of the server, is built; Bedrock
    and Ollama, which take neither key nor endpoint, are reached only when
    the client named no provider. *)
Theorem client_endpoint_gets_client_key
    (parseFloat : string -> float) (inheritedMember : string -> option string)
    (o : option ClientOverrides) (env : Env) (cfg : ModelConfig) :
  getAIModel parseFloat inheritedMember o env = Ok cfg ->
  (Js.truthy (opt baseUrl o) = true -> Js.truthy (opt apiKey o) = true)
  /\
  (Js.truthy (opt apiKey o) = true ->
   match cfg_model cfg with
   | OpenAIChat k u _ | GoogleCustom k u _ | OpenRouterModel k u _
   | DeepSeekCustom k u _ | AzureCustom k u _ _ =>
       k = opt apiKey o
       /\ (Js.truthy (opt baseUrl o) = true -> u = opt baseUrl o)
   | AnthropicModel k u _ _ =>
       k = opt apiKey o
       /\ (Js.truthy (opt baseUrl o) = true -> Some u = opt baseUrl o)
   | BedrockModel _ _ | OllamaDefault _ | OllamaCustom _ _ =>
       Js.truthy (opt provider o) = false
   | OpenAIDefault _ | GoogleDefault _ | AzureDefault _ | DeepSeekDefault _ =>
       False
   end).
Proof.
  intros H.
  apply getAIModel_Ok in H
    as (given & custom & options & headers & Hg & _ & Hs & _ & _ & Hc & _).
  split.
  - intros Hb. unfold securityGate in Hg. rewrite Hb in Hg.
    destruct (Js.truthy (opt apiKey o)); [reflexivity | discriminate Hg].
  - intros Hk.
    unfold createModel, compatible in Hc.
    destruct (ofString given) as [[]|] eqn:E; [..|discriminate Hc].
    all: rewrite ?Hk, ?(or_else_truthy _ _ Hk), ?orb_true_r in Hc.
    all: repeat match type of Hc with
                | (if ?c then _ else _) = _ => destruct c eqn:?
                end; inv_result; cbn [cfg_model].
    all: try (split; [reflexivity|]; intros Hb;
              rewrite ?(or_else_truthy (opt baseUrl o) _ Hb),
                ?(whenTruthy_truthy _ Hb);
              destruct (opt baseUrl o) as [[|? ?]|]; try discriminate Hb;
              reflexivity).
    all: destruct (Js.truthy (opt provider o)) eqn:Hp; [|reflexivity];
      apply (override_selects_allowed o env given Hs) in Hp;
      apply ofString_Some in E; subst given; cbn in Hp;
      repeat (destruct Hp as [Hp | Hp]; [discriminate Hp|]);
      contradiction.
Qed.

Lemma client_endpoint_gets_client_key_witness :
  let o := overrides (Some "openai") (Some "https://proxy.example")
             (Some "sk-client") (Some "gpt-4o") in
  Js.truthy (opt apiKey o) = true
  /\ Some "sk-client" = opt apiKey o
  /\ (Js.truthy (opt baseUrl o) = true ->
      Some "https://proxy.example" = opt baseUrl o).
Proof.
  intros o.
  pose (claim :=
          client_endpoint_gets_client_key
            parseFloatOfNoNumber nodeInheritedMember o
            (environment [("OPENAI_API_KEY", "sk-server");
                          ("OPENAI_BASE_URL", "https://api.openai.com/v1")])
            {| cfg_model := OpenAIChat (Some "sk-client")
                              (Some "https://proxy.example") "gpt-4o";
               cfg_providerOptions := None;
               cfg_headers := None;
               cfg_modelId := "gpt-4o" |}
            eq_refl).
  split; [exact (proj1 claim eq_refl) | exact (proj2 claim eq_refl)].
Defined.

(** ** The descriptor of a successful resolution *)

(** X6: a resolution that succeeds has a model identifier that is not
    empty; it is the override when one is given and AI_MODEL otherwise, and
    the client is built for this very identifier. *)
Theorem resolved_model_id
    (parseFloat : string -> float) (inheritedMember : string -> option string)
    (o : option ClientOverrides) (env : Env) (cfg : ModelConfig) :
  getAIModel parseFloat inheritedMember o env = Ok cfg ->
  cfg_modelId cfg <> ""
  /\ cfg_modelId cfg
     = (if Js.truthy (opt modelId o) then str (opt modelId o)
        else str (env !! "AI_MODEL"))
  /\ match cfg_model cfg with
     | BedrockModel _ i | OpenAIDefault i | OpenAIChat _ _ i
     | AnthropicModel _ _ _ i | GoogleDefault i | GoogleCustom _ _ i
     | AzureDefault i | AzureCustom _ _ _ i | OllamaDefault i
     | OllamaCustom _ i | OpenRouterModel _ _ i | DeepSeekDefault i
     | DeepSeekCustom _ _ i => i = cfg_modelId cfg
     end.
Proof.
  intros H.
  apply getAIModel_Ok in H
    as (given & custom & options & headers & _ & Hm & _ & _ & _ & Hc & _).
  unfold resolveModelId, Js.or_else in Hm.
  split; [|split].
  - destruct (Js.truthy (opt modelId o)) eqn:T.
    + rewrite T in Hm. inv_result. intros E.
      destruct (opt modelId o) as [[|]|]; discriminate.
    + destruct (Js.truthy (env !! "AI_MODEL")) eqn:T'.
      * inv_result. intros E.
        destruct (env !! "AI_MODEL") as [[|]|]; discriminate.
      * destruct (isClientOverride o); discriminate Hm.
  - destruct (Js.truthy (opt modelId o)) eqn:T.
    + rewrite T in Hm. now inv_result.
    + destruct (Js.truthy (env !! "AI_MODEL")).
      * now inv_result.
      * destruct (isClientOverride o); discriminate Hm.
  - unfold createModel, compatible in Hc.
    destruct (ofString given) as [[]|]; [..|discriminate Hc];
      repeat match type of Hc with
             | (if ?c then _ else _) = _ => destruct c
             end; inv_result; reflexivity.
Qed.

Lemma resolved_model_id_witness :
  "claude-sonnet-4-5" <> ""
  /\ "claude-sonnet-4-5"
     = (if Js.truthy (Some "claude-sonnet-4-5") then "claude-sonnet-4-5"
        else "gpt-4o").
Proof.
  pose (claim :=
          resolved_model_id parseFloatOfNoNumber nodeInheritedMember
            (overrides (Some "anthropic") None (Some "sk-client")
               (Some "claude-sonnet-4-5"))
            (environment [("AI_MODEL", "gpt-4o")])
            {| cfg_model :=
                 AnthropicModel (Some "sk-client") "https://api.anthropic.com/v1"
                   ANTHROPIC_BETA_HEADERS "claude-sonnet-4-5";
               cfg_providerOptions := None;
               cfg_headers := Some ANTHROPIC_BETA_HEADERS;
               cfg_modelId := "claude-sonnet-4-5" |}
            eq_refl).
  split; [exact (proj1 claim) | exact (proj1 (proj2 claim))].
Defined.

(** X7: the beta headers are attached to the descriptor exactly when the
    governing provider is the direct Anthropic API, whatever else is
    configured. *)
Theorem headers_only_for_anthropic
    (parseFloat : string -> float) (inheritedMember : string -> option string)
    (o : option ClientOverrides) (env : Env) (cfg : ModelConfig) :
  getAIModel parseFloat inheritedMember o env = Ok cfg ->
  exists given,
    selectProvider o env = Ok given
    /\ cfg_headers cfg
       = (if (given =? "anthropic")%string then Some ANTHROPIC_BETA_HEADERS
          else None).
Proof.
  intros H.
  apply getAIModel_Ok in H
    as (given & custom & options & headers & _ & _ & Hs & _ & _ & Hc & Hh & _).
  exists given. split; [exact Hs|]. rewrite Hh.
  unfold createModel, compatible in Hc.
  destruct (ofString given) as [p|] eqn:E; [|discriminate Hc].
  apply ofString_Some in E. subst given.
  destruct p; cbv beta iota in Hc;
    repeat match type of Hc with
           | (if ?c then _ else _) = _ => destruct c
           end; injection Hc as _ _ <-; reflexivity.
Qed.

Lemma headers_only_for_anthropic_witness :
  exists given,
    selectProvider None
      (environment [("AI_MODEL", "claude-sonnet-4-5");
                    ("ANTHROPIC_API_KEY", "sk-server")]) = Ok given
    /\ Some ANTHROPIC_BETA_HEADERS
       = (if (given =? "anthropic")%string then Some ANTHROPIC_BETA_HEADERS
          else None).
Proof.
  exact (headers_only_for_anthropic parseFloatOfNoNumber nodeInheritedMember None
           (environment [("AI_MODEL", "claude-sonnet-4-5");
                         ("ANTHROPIC_API_KEY", "sk-server")])
           {| cfg_model :=
                AnthropicModel (Some "sk-server") "https://api.anthropic.com/v1"
                  ANTHROPIC_BETA_HEADERS "claude-sonnet-4-5";
              cfg_providerOptions := None;
              cfg_headers := Some ANTHROPIC_BETA_HEADERS;
              cfg_modelId := "claude-sonnet-4-5" |}
           eq_refl).
Defined.

(** ** Shape of the provider options *)

Lemma googleOptions_shape
    (parseFloat : string -> float) (env : Env) (m : option string)
    (options : Obj.t) :
  googleOptions parseFloat env m = Ok options ->
  options = [] \/ exists g, options = [("google", JObj g)].
Proof.
  unfold googleOptions. intros H.
  apply bind_Ok in H as (budget & _ & H).
  apply bind_Ok in H as (count & _ & H).
  apply bind_Ok in H as (topK & _ & H).
  apply bind_Ok in H as (sampling & _ & H).
  destruct (Obj.nonEmpty sampling);
    repeat match type of H with
           | context [if ?c then _ else _] => destruct c
           end; inv_result; cbn; eauto.
Qed.

Lemma buildProviderOptions_shape
    (parseFloat : string -> float) (env : Env) (given : string)
    (m : option string) (options : Obj.t) :
  buildProviderOptions parseFloat env given m = Ok (Some options) ->
  exists body, options = [(given, JObj body)].
Proof.
  unfold buildProviderOptions. intros H.
  apply bind_Ok in H as (built & Hb & H).
  destruct (Obj.nonEmpty built) eqn:N; [|discriminate H]. inv_result.
  destruct (ofString given) as [p|] eqn:E;
    [|inv_result; discriminate N].
  apply ofString_Some in E. subst given.
  destruct p; cbv beta iota in Hb; try (inv_result; discriminate N).
  - apply bedrockOptions_shape in Hb as [-> | [rc ->]];
      [discriminate N | eauto].
  - inv_result. unfold openaiOptions in *.
    repeat match goal with
           | |- context [if ?c then _ else _] => destruct c
           end; try discriminate N; eauto.
  - unfold anthropicOptions in Hb.
    apply bind_Ok in Hb as (b & _ & Hb).
    destruct (numTruthy b); inv_result; [eauto | discriminate N].
  - apply googleOptions_shape in Hb as [-> | [g ->]];
      [discriminate N | eauto].
  - inv_result. unfold azureOptions in *.
    destruct (_ || _); [eauto | discriminate N].
  - inv_result. unfold ollamaOptions in *.
    destruct (env !! "OLLAMA_ENABLE_THINKING") as [s|]; [|discriminate N].
    destruct (String.eqb_spec s "true") as [->|Hne]; [cbn; eauto|].
    exfalso. revert N.
    repeat match goal with
           | |- context [match ?x with _ => _ end] =>
               lazymatch x with
               | context [match _ with _ => _ end] => fail
               | _ => destruct x; try discriminate
               end
           end.
    now destruct Hne.
Qed.

(** X8: the provider options of a descriptor, when there are any, are one
    object under one key, and the key is the name of the governing provider:
    settings of one provider never reach the request of another. *)
Theorem provider_options_keyed_by_provider
    (parseFloat : string -> float) (inheritedMember : string -> option string)
    (o : option ClientOverrides) (env : Env) (cfg : ModelConfig)
    (options : Obj.t) :
  getAIModel parseFloat inheritedMember o env = Ok cfg ->
  cfg_providerOptions cfg = Some options ->
  exists given body,
    selectProvider o env = Ok given /\ options = [(given, JObj body)].
Proof.
  intros H Ho.
  apply getAIModel_Ok in H
    as (given & custom & built & headers & _ & _ & Hs & _ & Hb & Hc & _ & Hp).
  exists given. rewrite Hp in Ho. clear Hp.
  assert (S : forall c, custom = Some c -> exists body, c = [(given, JObj body)]).
  { intros c ->. now apply buildProviderOptions_shape in Hb. }
  unfold createModel, compatible in Hc.
  destruct (ofString given) as [p|] eqn:E; [|discriminate Hc].
  apply ofString_Some in E.
  destruct p; cbv beta iota in Hc;
    repeat match type of Hc with
           | (if ?c then _ else _) = _ => destruct c
           end; injection Hc as _ <- _; cbn [providerString] in E.
  1: { subst given. destruct custom; cbn in Ho; injection Ho as <-; eauto. }
  all: destruct custom as [c|]; [|discriminate Ho];
    destruct (S c eq_refl) as [body ->];
    subst given; cbn in Ho; injection Ho as <-; eauto.
Qed.

Lemma provider_options_keyed_by_provider_witness :
  exists given body,
    selectProvider None
      (environment [("AI_MODEL", "o3-mini"); ("OPENAI_API_KEY", "sk-server");
                    ("ANTHROPIC_THINKING_BUDGET_TOKENS", "2048")]) = Ok given
    /\ [("openai", JObj [("reasoningSummary", JStr "detailed")])]
       = [(given, JObj body)].
Proof.
  exact (provider_options_keyed_by_provider
           parseFloatOfNoNumber nodeInheritedMember None
           (environment [("AI_MODEL", "o3-mini"); ("OPENAI_API_KEY", "sk-server");
                         ("ANTHROPIC_THINKING_BUDGET_TOKENS", "2048")])
           {| cfg_model := OpenAIDefault "o3-mini";
              cfg_providerOptions :=
                Some [("openai", JObj [("reasoningSummary", JStr "detailed")])];
              cfg_headers := None;
              cfg_modelId := "o3-mini" |}
           [("openai", JObj [("reasoningSummary", JStr "detailed")])]
           eq_refl eq_refl).
Defined.

(** ** Options of the Google family *)

Lemma parseIntSafe_range (value : option string) (varName : string)
    (lo hi n : Z) :
  parseIntSafe value varName (Some lo) (Some hi) = Ok (Some n) -> lo <= n <= hi.
Proof.
  unfold parseIntSafe.
  destruct (negb (Js.truthy value)); [discriminate|].
  destruct (Js.parseInt (str value)) as [k|]; [|discriminate].
  destruct (Z.ltb_spec k lo); [discriminate|].
  destruct (Z.ltb_spec hi k); [discriminate|].
  intros [= <-]. lia.
Qed.

Ltac google_cases H :=
  unfold setIf in H;
  repeat match type of H with
         | context [if ?c then _ else _] =>
             lazymatch c with
             | context [if _ then _ else _] => fail
             | _ => let E := fresh "E" in destruct c eqn:E
             end
         end;
  cbn [bind Obj.nonEmpty Obj.get Obj.set Obj.spread fold_left fst snd
       String.eqb Ascii.eqb Bool.eqb] in H;
  try discriminate H.

(** X9: for a Gemini 2 or Gemini 3 identifier the options always hold a
    thinking configuration with [includeThoughts] set, whatever budget,
    level or sampling settings are present; the configuration never holds a
    budget and a level together, and GOOGLE_REASONING_EFFORT is not used. *)
Theorem google_includes_thoughts
    (parseFloat : string -> float) (env : Env) (m : string) (options : Obj.t) :
  Js.includes m "gemini-2" || Js.includes m "gemini-3"
  || Js.includes m "gemini2" || Js.includes m "gemini3" = true ->
  googleOptions parseFloat env (Some m) = Ok options ->
  exists g tc,
    options = [("google", JObj g)]
    /\ Obj.get "thinkingConfig" g = Some (JObj tc)
    /\ Obj.get "includeThoughts" tc = Some (JBool true)
    /\ (Obj.get "thinkingBudget" tc = None \/ Obj.get "thinkingLevel" tc = None)
    /\ Obj.get "reasoningEffort" g = None.
Proof.
  intros Hm H. unfold googleOptions in H.
  change (str (Some m)) with m in H. rewrite Hm in H.
  assert (T : Js.truthy (Some m) = true) by (destruct m; [discriminate Hm | reflexivity]).
  rewrite T in H. cbn [andb] in H.
  apply bind_Ok in H as (budget & _ & H).
  apply bind_Ok in H as (count & _ & H).
  apply bind_Ok in H as (topK & _ & H).
  google_cases H; inv_result;
    do 2 eexists; (split; [reflexivity|]); cbn; auto.
Qed.

Lemma google_includes_thoughts_witness :
  exists g tc,
    [("google",
      JObj [("thinkingConfig",
             JObj [("includeThoughts", JBool true);
                   ("thinkingBudget", JInt 2048)]);
            ("topK", JInt 5)])]
    = [("google", JObj g)]
    /\ Obj.get "thinkingConfig" g = Some (JObj tc)
    /\ Obj.get "includeThoughts" tc = Some (JBool true)
    /\ (Obj.get "thinkingBudget" tc = None \/ Obj.get "thinkingLevel" tc = None)
    /\ Obj.get "reasoningEffort" g = None.
Proof.
  exact (google_includes_thoughts parseFloatOfNoNumber
           (environment [("GOOGLE_THINKING_BUDGET", "2048");
                         ("GOOGLE_THINKING_LEVEL", "high");
                         ("GOOGLE_REASONING_EFFORT", "low");
                         ("GOOGLE_TOP_K", "5")])
           "gemini-2.5-pro" _ eq_refl eq_refl).
Defined.

(** X10: the sampling settings that reach the Google options are checked:
    a candidate count lies within 1..8, a top-K within 1..100, a thinking
    budget within 1024..100000, and a top-P is the number parsed from
    GOOGLE_TOP_P, which is not NaN, not below 0 and not above 1. *)
Theorem google_sampling_within_bounds
    (parseFloat : string -> float) (env : Env) (m : option string)
    (options g : Obj.t) :
  googleOptions parseFloat env m = Ok options ->
  Obj.get "google" options = Some (JObj g) ->
  (forall n, Obj.get "candidateCount" g = Some (JInt n) -> 1 <= n <= 8)
  /\ (forall n, Obj.get "topK" g = Some (JInt n) -> 1 <= n <= 100)
  /\ (forall tc n, Obj.get "thinkingConfig" g = Some (JObj tc) ->
        Obj.get "thinkingBudget" tc = Some (JInt n) -> 1024 <= n <= 100000)
  /\ (forall f, Obj.get "topP" g = Some (JFloat f) ->
        f = parseFloat (str (env !! "GOOGLE_TOP_P"))
        /\ PrimFloat.is_nan f = false
        /\ PrimFloat.ltb f PrimFloat.zero = false
        /\ PrimFloat.ltb PrimFloat.one f = false).
Proof.
  intros H Hg. unfold googleOptions in H.
  apply bind_Ok in H as (budget & Hb & H).
  apply bind_Ok in H as (count & Hc & H).
  apply bind_Ok in H as (topK & Hk & H).
  assert (Rb : forall n, budget = Some n -> 1024 <= n <= 100000).
  { intros n ->. now apply parseIntSafe_range in Hb. }
  assert (Rc : forall n, count = Some n -> 1 <= n <= 8).
  { intros n ->. now apply parseIntSafe_range in Hc. }
  assert (Rk : forall n, topK = Some n -> 1 <= n <= 100).
  { intros n ->. now apply parseIntSafe_range in Hk. }
  clear Hb Hc Hk.
  google_cases H; inv_result;
    cbn [Obj.get String.eqb Ascii.eqb Bool.eqb] in Hg; try discriminate Hg;
    injection Hg as <-;
    cbn [Obj.get String.eqb Ascii.eqb Bool.eqb];
    (split; [|split; [|split]]); intros; try discriminate;
    repeat match goal with
           | H : Some _ = Some _ |- _ => injection H as H; try subst
           | H : JObj _ = JObj _ |- _ => injection H as H; try subst
           end;
    cbn [Obj.get String.eqb Ascii.eqb Bool.eqb] in *; try discriminate;
    repeat match goal with
           | H : Some (JInt _) = Some (JInt _) |- _ => injection H as H; try subst
           | H : Some (JFloat _) = Some (JFloat _) |- _ => injection H as H; try subst
           end.
  all: repeat match goal with
              | H : numTruthy _ && _ = true |- _ => apply andb_prop in H as [H _]
              | H : numTruthy ?x = true |- _ =>
                  is_var x; destruct x; [clear H | discriminate H]
              end.
  all: cbv [num default from_option id].
  all: try (first [apply Rc | apply Rk | apply Rb]; reflexivity).
  all: match goal with
       | E : _ || _ || _ = false |- _ =>
           apply orb_false_elim in E as [E ?];
           apply orb_false_elim in E as [? ?]; auto
       end.
Qed.

Lemma google_sampling_within_bounds_witness :
  (forall n, Some (JInt 5) = Some (JInt n) -> 1 <= n <= 100)
  /\ 1 <= 5 <= 100.
Proof.
  pose (claim :=
          google_sampling_within_bounds parseFloatOfNoNumber
            (environment [("GOOGLE_TOP_K", "5")]) (Some "gemini-1.5-pro")
            [("google", JObj [("topK", JInt 5)])] [("topK", JInt 5)]
            eq_refl eq_refl).
  split.
  - exact (proj1 (proj2 claim)).
  - exact (proj1 (proj2 claim) 5 eq_refl).
Defined.


(** ** Reasoning settings on Bedrock *)



(** ** Auto-detection, as a whole *)

Lemma qualifying_provider (env : Env) (p : ProviderName) :
  In p (configuredProviders env) ->
  exists requiredVar,
    In (p, Some requiredVar) PROVIDER_ENV_VARS
    /\ Js.truthy (env !! requiredVar) = true
    /\ (p = azure -> azureEndpoint env = true).
Proof.
  unfold configuredProviders. rewrite in_flat_map.
  intros (e & Hq & Hp). destruct e as [q [v|]]; cbv beta iota in Hp;
    [|destruct Hp].
  destruct (Js.truthy (env !! v)) eqn:T; [|destruct Hp].
  exists v.
  destruct q; try (destruct Hp as [<- | []];
                   split; [exact Hq | split; [exact T | discriminate]]).
  destruct (azureEndpoint env); [|destruct Hp].
  destruct Hp as [<- | []]. split; [exact Hq | split; [exact T | reflexivity]].
Qed.

(** X12: a provider qualifies for auto-detection exactly when its credential
    variable is set and not empty and, for Azure, an endpoint setting is
    present as well; Bedrock and Ollama, which have no credential variable,
    never qualify. *)
Theorem qualifying_providers (env : Env) (p : ProviderName) :
  In p (configuredProviders env)
  <-> exists requiredVar,
        In (p, Some requiredVar) PROVIDER_ENV_VARS
        /\ Js.truthy (env !! requiredVar) = true
        /\ (p = azure -> azureEndpoint env = true).
Proof.
  split; [apply qualifying_provider|].
  intros (v & Hin & Hv & Hz).
  unfold configuredProviders. rewrite in_flat_map.
  exists (p, Some v). split; [exact Hin|]. rewrite Hv.
  destruct p; try (now left).
  rewrite (Hz eq_refl). now left.
Qed.

(** X13: what selection does when neither the client nor AI_PROVIDER names
    a provider.  One qualifying provider: it is selected.  Several: the
    failure lists the configured providers.  None: the failure is the one
    for no configured provider, unless the Azure key is set without an
    endpoint setting, which is reported as several configured providers. *)
Theorem auto_detection_outcome (o : option ClientOverrides) (env : Env) :
  Js.truthy (opt provider o) = false ->
  Js.truthy (env !! "AI_PROVIDER") = false ->
  selectProvider o env
  = match configuredProviders env with
    | [p] => Ok (providerString p)
    | [] => if Js.truthy (env !! "AZURE_API_KEY")
            then Err (MultipleProvidersConfigured (configured env))
            else Err NoProviderConfigured
    | _ :: _ :: _ => Err (MultipleProvidersConfigured (configured env))
    end.
Proof.
  intros Ho Hs.
  destruct (configuredProviders env) as [|p [|q l]] eqn:E.
  - destruct (Js.truthy (env !! "AZURE_API_KEY")) eqn:Z.
    + apply azure_configured in Z.
      unfold selectProvider, selectFromEnvironment, detectProvider.
      rewrite Ho, Hs, E.
      destruct (configured env); [destruct Z | reflexivity].
    + exact (auto_detect_none env o Ho Hs E Z).
  - exact (auto_detect_unique env o Ho Hs p E).
  - refine (proj1 (auto_detect_many env o Ho Hs _)).
    rewrite E. cbn [length]. lia.
Qed.

Lemma auto_detection_outcome_witness :
  selectProvider None
    (environment [("AI_MODEL", "deepseek-chat"); ("DEEPSEEK_API_KEY", "sk-server");
                  ("AZURE_API_KEY", "key")])
  = Ok "deepseek"
  /\ selectProvider None
       (environment [("OPENAI_API_KEY", "a"); ("KIMI_API_KEY", "b")])
     = Err (MultipleProvidersConfigured ["openai"; "kimi"])
  /\ selectProvider None (environment [("AI_MODEL", "gpt-4o")])
     = Err NoProviderConfigured.
Proof.
  split; [|split].
  - exact (auto_detection_outcome None
             (environment [("AI_MODEL", "deepseek-chat");
                           ("DEEPSEEK_API_KEY", "sk-server");
                           ("AZURE_API_KEY", "key")]) eq_refl eq_refl).
  - exact (auto_detection_outcome None
             (environment [("OPENAI_API_KEY", "a"); ("KIMI_API_KEY", "b")])
             eq_refl eq_refl).
  - exact (auto_detection_outcome None (environment [("AI_MODEL", "gpt-4o")])
             eq_refl eq_refl).
Defined.

Lemma ofString_providerString (p : ProviderName) :
  ofString (providerString p) = Some p.
Proof. destruct p; reflexivity. Qed.

(** X14: a provider found by auto-detection always passes the credential
    check, so a resolution that reaches it can only fail on a malformed
    setting of the option builder. *)
Theorem detected_provider_has_credentials
    (parseFloat : string -> float) (inheritedMember : string -> option string)
    (o : option ClientOverrides) (env : Env) (p : ProviderName) :
  Js.truthy (opt provider o) = false ->
  Js.truthy (env !! "AI_PROVIDER") = false ->
  detectProvider env = Some p ->
  validateProviderCredentials inheritedMember env (providerString p) = Ok tt
  /\ forall m e,
       securityGate o = Ok tt ->
       resolveModelId o env = Ok m ->
       getAIModel parseFloat inheritedMember o env = Err e ->
       kindOf e = ConfigurationError.
Proof.
  intros Ho Hs Hd.
  assert (Hsel : selectProvider o env = Ok (providerString p)).
  { unfold selectProvider, selectFromEnvironment. now rewrite Ho, Hs, Hd. }
  assert (Hin : In p (configuredProviders env)).
  { unfold detectProvider in Hd.
    destruct (configuredProviders env) as [|q [|]]; try discriminate Hd.
    injection Hd as ->. now left. }
  apply qualifying_provider in Hin as (v & Hin & Hv & Hz).
  assert (V : validateProviderCredentials inheritedMember env (providerString p)
              = Ok tt).
  { unfold validateProviderCredentials.
    rewrite (requiredVarOf_table inheritedMember p _ Hin), Hv. cbn [bind].
    destruct p; try reflexivity.
    rewrite (Hz eq_refl). reflexivity. }
  split; [exact V|].
  intros m e Hg Hm H. unfold getAIModel in H.
  rewrite Hg, Hm, Hsel in H. cbn [bind] in H.
  assert (Hc : isClientOverride o = false).
  { unfold isClientOverride. now rewrite Ho. }
  rewrite Hc, V in H. cbn [bind] in H.
  apply bind_Err in H as [H | (c & _ & H)].
  { now apply buildProviderOptions_Err in H. }
  apply bind_Err in H as [H | ([[model po] hd] & _ & H)]; [|discriminate H].
  exfalso. clear - H. unfold createModel in H.
  rewrite ofString_providerString in H.
  destruct p; cbv beta iota in H;
    repeat match type of H with
           | (if ?c then _ else _) = _ => destruct c
           end; discriminate H.
Qed.

Lemma detected_provider_has_credentials_witness :
  validateProviderCredentials nodeInheritedMember
    (environment [("AI_MODEL", "gpt-4o"); ("AZURE_API_KEY", "key");
                  ("AZURE_RESOURCE_NAME", "contoso")])
    "azure" = Ok tt.
Proof.
  exact (proj1 (detected_provider_has_credentials
                  parseFloatOfNoNumber nodeInheritedMember None
                  (environment [("AI_MODEL", "gpt-4o"); ("AZURE_API_KEY", "key");
                                ("AZURE_RESOURCE_NAME", "contoso")])
                  azure eq_refl eq_refl eq_refl)).
Defined.

(** ** Endpoints *)





Lemma truthy_or_else (a b : option string) :
  Js.truthy (Js.or_else a b) = Js.truthy a || Js.truthy b.
Proof. unfold Js.or_else. destruct (Js.truthy a) eqn:T; [exact T | reflexivity]. Qed.

(** X16: for Azure the default client is never used.  Every successful
    resolution builds a configured client, which is given a base URL or a
    resource name but never both, and without a client override it is given
    one of the two. *)
Theorem azure_client_is_configured
    (parseFloat : string -> float) (inheritedMember : string -> option string)
    (o : option ClientOverrides) (env : Env) (cfg : ModelConfig) :
  getAIModel parseFloat inheritedMember o env = Ok cfg ->
  selectProvider o env = Ok "azure" ->
  exists apiKey baseURL resourceName,
    cfg_model cfg = AzureCustom apiKey baseURL resourceName (cfg_modelId cfg)
    /\ (baseURL = None \/ resourceName = None)
    /\ (isClientOverride o = false ->
        Js.truthy baseURL = true \/ Js.truthy resourceName = true).
Proof.
  intros H Hs.
  apply getAIModel_Ok in H
    as (given & custom & options & headers & _ & _ & Hs' & Hv & _ & Hc & _).
  rewrite Hs in Hs'. injection Hs' as <-.
  unfold createModel in Hc. change (ofString "azure") with (Some azure) in Hc.
  cbv beta iota in Hc.
  assert (W : forall v, Js.truthy (whenTruthy v) = Js.truthy v).
  { intros v. unfold whenTruthy. destruct (Js.truthy v) eqn:T; [exact T | reflexivity]. }
  destruct (Js.truthy (Js.or_else (opt baseUrl o) (env !! "AZURE_BASE_URL"))
            || Js.truthy (env !! "AZURE_RESOURCE_NAME")
            || Js.truthy (opt apiKey o)) eqn:C.
  - injection Hc as <- _ _. do 3 eexists. split; [reflexivity|]. split.
    + destruct (Js.truthy (Js.or_else _ _)) eqn:T; [now right|].
      left. unfold whenTruthy. now rewrite T.
    + intros Ho. specialize (Hv Ho).
      unfold validateProviderCredentials in Hv.
      change (requiredVarOf inheritedMember "azure") with (Some "AZURE_API_KEY") in Hv.
      cbv beta iota in Hv.
      destruct (Js.truthy (env !! "AZURE_API_KEY")); [|discriminate Hv].
      cbn [bind] in Hv. change ("azure" =? "azure")%string with true in Hv.
      destruct (azureEndpoint env) eqn:A; [|discriminate Hv].
      unfold azureEndpoint in A. rewrite W.
      destruct (Js.truthy (Js.or_else (opt baseUrl o) (env !! "AZURE_BASE_URL")))
        eqn:T; [now left|].
      right. rewrite W. rewrite truthy_or_else in T.
      apply orb_false_elim in T as [_ T]. rewrite T in A. exact A.
  - exfalso.
    apply orb_false_elim in C as [C Ck]. apply orb_false_elim in C as [Cb Cr].
    assert (Ho : isClientOverride o = false).
    { unfold isClientOverride. now rewrite Ck, andb_false_r. }
    specialize (Hv Ho). unfold validateProviderCredentials in Hv.
    change (requiredVarOf inheritedMember "azure") with (Some "AZURE_API_KEY") in Hv.
    cbv beta iota in Hv.
    destruct (Js.truthy (env !! "AZURE_API_KEY")); [|discriminate Hv].
    cbn [bind] in Hv. change ("azure" =? "azure")%string with true in Hv.
    destruct (azureEndpoint env) eqn:A; [|discriminate Hv].
    unfold azureEndpoint in A. rewrite Cr, orb_false_r in A.
    rewrite truthy_or_else in Cb. apply orb_false_elim in Cb as [_ Cb].
    congruence.
Qed.

Lemma azure_client_is_configured_witness :
  exists apiKey baseURL resourceName,
    AzureCustom (Some "key") None (Some "contoso") "gpt-4o"
    = AzureCustom apiKey baseURL resourceName "gpt-4o"
    /\ (baseURL = None \/ resourceName = None)
    /\ (isClientOverride None = false ->
        Js.truthy baseURL = true \/ Js.truthy resourceName = true).
Proof.
  exact (azure_client_is_configured
           parseFloatOfNoNumber nodeInheritedMember None
           (environment [("AI_MODEL", "gpt-4o"); ("AZURE_API_KEY", "key");
                         ("AZURE_RESOURCE_NAME", "contoso")])
           {| cfg_model := AzureCustom (Some "key") None (Some "contoso") "gpt-4o";
              cfg_providerOptions := None;
              cfg_headers := None;
              cfg_modelId := "gpt-4o" |}
           eq_refl eq_refl).
Defined.

(** X17: every identifier that receives the Anthropic beta flags on Bedrock
    (it contains "anthropic.claude") is classified as supporting prompt
    caching. *)
Theorem bedrock_claude_supports_caching (m : string) :
  Js.includes m "anthropic.claude" = true -> supportsPromptCaching m = true.
Proof.
  intros H. unfold supportsPromptCaching.
  now rewrite (includes_marker m H).
Qed.

Lemma bedrock_claude_supports_caching_witness :
  supportsPromptCaching "us.anthropic.claude-sonnet-4-5" = true.
Proof.
  exact (bedrock_claude_supports_caching "us.anthropic.claude-sonnet-4-5" eq_refl).
Defined.

(** * Properties of the settings dialog *)

Section DialogProperties.

Import Dialog.

(** X18: the access-code flag is fetched once.  With nothing cached, an
    answer of the server is stored and read back as the same flag, also as
    the initial state of a later mount, and a later run of the effect changes
    nothing whatever it would fetch; a failed request stores nothing, so the
    next mount asks again. *)
Theorem access_code_flag_cached
    (st : State) (localStorage : Storage) (required : bool) :
  getStoredAccessCodeRequired true localStorage = None ->
  let s1 := step (Mounted (Some required)) (st, localStorage) in
  getStoredAccessCodeRequired true (snd s1) = Some required
  /\ accessCodeRequired (fst s1) = required
  /\ accessCodeRequired (initial true (snd s1)) = required
  /\ (forall fetched, step (Mounted fetched) s1 = s1)
  /\ snd (step (Mounted None) (st, localStorage)) = localStorage
  /\ accessCodeRequired (fst (step (Mounted None) (st, localStorage))) = false.
Proof.
  intros H. unfold step. rewrite H. cbn [fst snd accessCodeRequired].
  assert (R : getStoredAccessCodeRequired true
                (<[STORAGE_ACCESS_CODE_REQUIRED_KEY := boolString required]>
                   localStorage) = Some required).
  { unfold getStoredAccessCodeRequired. cbn [negb].
    rewrite lookup_insert_eq. now destruct required. }
  repeat split; try exact R.
  - unfold initial. cbn [accessCodeRequired]. now rewrite R.
  - intros fetched. now rewrite R.
Qed.

Lemma access_code_flag_cached_witness :
  getStoredAccessCodeRequired true
    (snd (step (Mounted (Some true)) (initial true ∅, ∅))) = Some true.
Proof.
  exact (proj1 (access_code_flag_cached (initial true ∅) ∅ true eq_refl)).
Defined.

Ltac storage_lookup :=
  repeat first
    [ rewrite lookup_insert_eq
    | rewrite lookup_delete_eq
    | rewrite lookup_insert_ne by discriminate
    | rewrite lookup_delete_ne by discriminate ].

(** The state shows what the storage holds. *)
Lemma reopening_preserved (e : Event) (s : State * Storage) :
  settings (fst (step Opened s)) = settings (fst s) ->
  settings (fst (step Opened (step e s))) = settings (fst (step e s)).
Proof.
  destruct s as [st localStorage].
  destruct e; unfold settings, step;
    try (destruct (getStoredAccessCodeRequired true localStorage);
         [|destruct fetched]);
    cbn [fst snd aiProvider aiBaseUrl aiApiKey aiModelId closeProtection];
    intros [= Hp Hb Hk Hm Hc]; storage_lookup;
    rewrite ?Hp, ?Hb, ?Hk, ?Hm, ?Hc; try reflexivity.
  now destruct checked.
Qed.

(** X19: once the dialog has been opened, whatever is then typed, selected,
    switched or cleared, in any order, the provider, base URL, key, model
    and close protection it shows are the ones a reopening reads back from
    the storage. *)
Theorem reopening_shows_same_settings
    (events : list Event) (s : State * Storage) :
  let s' := run events (step Opened s) in
  settings (fst (step Opened s')) = settings (fst s').
Proof.
  unfold run.
  assert (G : forall s0, settings (fst (step Opened s0)) = settings (fst s0) ->
              settings (fst (step Opened (fold_left (fun s e => step e s) events s0)))
              = settings (fst (fold_left (fun s e => step e s) events s0))).
  { induction events as [|e events IH]; intros s0 H0; [exact H0|].
    cbn [fold_left]. apply IH. now apply reopening_preserved. }
  apply G. destruct s as [st localStorage]. reflexivity.
Qed.

(** X20: only the clear button removes what was stored.  After it the four
    override keys are gone from the storage while the access code and the
    close protection stay; going back to the server default in the select
    stores an empty provider and leaves the stored key, base URL and model
    where they are. *)
Theorem clearing_removes_stored_overrides (st : State) (localStorage : Storage) :
  let cleared := snd (step Cleared (st, localStorage)) in
  let defaulted := snd (step (ProviderSelected "default") (st, localStorage)) in
  Forall (fun k => cleared !! k = None)
    [STORAGE_AI_PROVIDER_KEY; STORAGE_AI_BASE_URL_KEY;
     STORAGE_AI_API_KEY_KEY; STORAGE_AI_MODEL_KEY]
  /\ Forall (fun k => cleared !! k = localStorage !! k)
       [STORAGE_ACCESS_CODE_KEY; STORAGE_CLOSE_PROTECTION_KEY;
        STORAGE_ACCESS_CODE_REQUIRED_KEY]
  /\ defaulted !! STORAGE_AI_PROVIDER_KEY = Some ""
  /\ Forall (fun k => defaulted !! k = localStorage !! k)
       [STORAGE_AI_BASE_URL_KEY; STORAGE_AI_API_KEY_KEY; STORAGE_AI_MODEL_KEY].
Proof.
  unfold step. cbn [snd]. change ("default" =? "default")%string with true.
  cbv iota.
  repeat split; repeat constructor; storage_lookup; reflexivity.
Qed.

Ltac each_item H :=
  cbn [In providerItems] in H;
  repeat (destruct H as [<- | H]; [try (split; reflexivity); try reflexivity|]);
  try destruct H.

(** X21: the provider select and the server agree.  The select shows again
    the item that was chosen; every item but the server default is stored as
    a name that provider selection accepts as a client override, whatever
    the other fields and the environment are, and the server default is
    stored as an empty provider, which leaves the choice to the environment. *)
Theorem selectable_providers_are_allowed
    (value : string) (s : State * Storage)
    (url key model : option string) (env : Env) :
  In value providerItems ->
  let st := fst (step (ProviderSelected value) s) in
  selectValue st = value
  /\ selectProvider (overrides (Some (aiProvider st)) url key model) env
     = (if (value =? "default")%string then selectFromEnvironment env
        else Ok value).
Proof.
  intros H. destruct s as [st0 localStorage]. unfold step.
  cbn [fst aiProvider]. unfold selectValue. cbn [aiProvider].
  each_item H.
Qed.

Lemma selectable_providers_are_allowed_witness :
  let st := fst (step (ProviderSelected "kimi") (initial true ∅, ∅)) in
  selectValue st = "kimi"
  /\ selectProvider (overrides (Some (aiProvider st)) None None None)
       (environment [("AI_PROVIDER", "openai")])
     = Ok "kimi".
Proof.
  refine (selectable_providers_are_allowed "kimi" (initial true ∅, ∅)
            None None None (environment [("AI_PROVIDER", "openai")]) _).
  cbn. tauto.
Defined.

(** X22: for every provider of the select, the variable the key field says
    the key overrides is the credential variable the server requires for
    that provider. *)
Theorem key_hint_names_required_variable
    (inheritedMember : string -> option string) (value : string) :
  In value providerItems ->
  value <> "default" ->
  requiredVarOf inheritedMember value = Some (apiKeyHint value).
Proof.
  intros H Hd. each_item H. now destruct Hd.
Qed.

Lemma key_hint_names_required_variable_witness :
  requiredVarOf nodeInheritedMember "google"
  = Some "GOOGLE_GENERATIVE_AI_API_KEY".
Proof.
  refine (key_hint_names_required_variable nodeInheritedMember "google" _ _);
    [cbn; tauto | discriminate].
Defined.



End DialogProperties.
